(** * pywebtop: the Webtop (SmartSchool) session client

    A shallow embedding of [webtop/client.py] (class [WebtopClient]) and
    the properties of its login / session / cookie handshake.

    The client is a mutable Python object driving an [httpx.AsyncClient].
    Here the object is a record threaded through a state-and-exception
    monad; the network is an oracle that answers the history of requests
    put on the wire.  Every [await] is a single sequential step: the
    embedding describes one task calling the client.  A response is its
    status code, its text and what [resp.json()] makes of it; response
    headers are outside the model, so the cookie jar holds what the
    client puts in it. *)

From Stdlib Require Import ZArith QArith List Ascii String Lia.
From stdpp Require Import base strings gmap.
Import ListNotations.

Local Open Scope Z_scope.
#[local] Set Warnings "-register-all".
Local Open Scope string_scope.

(** ** JSON values, as [resp.json()] hands them to Python *)

(** Objects keep their keys in insertion order, as Python dicts do.
    Numbers are the integers; the client only tests numbers for
    truthiness and passes them on. *)
Inductive JSON : Type :=
| JNull
| JBool (b : bool)
| JNum (n : Z)
| JStr (s : string)
| JList (l : list JSON)
| JObj (kvs : list (string * JSON)).

(** Python truthiness: [None], [False], [0], [""], [[]] and [{}] are
    falsy, everything else is truthy. *)
Definition truthy (v : JSON) : bool :=
  match v with
  | JNull => false
  | JBool b => b
  | JNum n => negb (n =? 0)%Z
  | JStr s => negb (String.eqb s "")
  | JList l => match l with [] => false | _ => true end
  | JObj kvs => match kvs with [] => false | _ => true end
  end.

(** [x or y] *)
Definition py_or (x y : JSON) : JSON := if truthy x then x else y.

(** [x is True]: identity with the singleton [True]; [1] is not [True]. *)
Definition is_True (v : JSON) : bool :=
  match v with
  | JBool true => true
  | _ => false
  end.

Definition is_obj (v : JSON) : bool :=
  match v with
  | JObj _ => true
  | _ => false
  end.

(** Key lookup in a dict. *)
Fixpoint dict_lookup (k : string) (kvs : list (string * JSON)) : option JSON :=
  match kvs with
  | [] => None
  | (k', v) :: rest => if String.eqb k k' then Some v else dict_lookup k rest
  end.

(** ** Formatted messages

    An f-string is kept as the sequence of its literal pieces and of the
    values it interpolates, in source order. *)
Inductive fpiece : Type :=
| FText (s : string)      (* a literal piece, or an interpolated [str] *)
| FInt (n : Z)            (* [{n}] for an [int] *)
| FRepr (v : JSON)        (* [{v!r}] *)
| FExc.                   (* [{e}] for the exception caught just before *)

Definition fstring := list fpiece.

(** [needle in haystack] on strings. *)
Fixpoint is_prefix (p s : string) : bool :=
  match p, s with
  | EmptyString, _ => true
  | String a p', String b s' => Ascii.eqb a b && is_prefix p' s'
  | String _ _, EmptyString => false
  end.

Fixpoint contains (needle hay : string) : bool :=
  is_prefix needle hay ||
  match hay with
  | EmptyString => false
  | String _ hay' => contains needle hay'
  end.

(** A message mentions a word when one of its literal pieces contains it. *)
Definition mentions (word : string) (msg : fstring) : bool :=
  existsb (fun p => match p with FText s => contains word s | _ => false end) msg.

(** ** Exceptions *)

(** Modelled from the spec: [WebtopLoginError] and [WebtopRequestError]
    are declared in [webtop/exceptions.py], which is not among the
    sources; the spec gives two error kinds, each carrying a message.
    The remaining constructors are the Python and httpx exceptions the
    client lets through. *)
Inductive Exn : Type :=
| WebtopLoginError (msg : fstring)
| WebtopRequestError (msg : fstring)
| AttributeError            (* [.get] on a value that is not a dict *)
| JSONDecodeError           (* [resp.json()] outside a [try] *)
| TransportError            (* the transport produced no response *)
| RuntimeError.             (* the transport was closed *)

Definition is_LoginError (e : Exn) : bool :=
  match e with
  | WebtopLoginError _ => true
  | _ => false
  end.

(** ** Sessions *)

(** Modelled from the spec: [WebtopSession] is declared in
    [webtop/models.py], which is not among the sources; the spec lists
    its fields (token, user id, student id, school id, school name,
    first and last name, raw login payload).  [login] fills them with
    the values it reads from the response, so each holds a JSON value;
    the record keeps what it is given, as a plain dataclass does, which
    the absent file decides. *)
Record WebtopSession : Type := {
  token : JSON;
  user_id : JSON;
  student_id : JSON;
  school_id : JSON;
  school_name : JSON;
  first_name : JSON;
  last_name : JSON;
  raw_login_data : JSON
}.

(** ** The transport *)

(** What the client reads of a response.  Its headers are left out:
    a cookie the portal sets is an entry of the real jar apart from the
    one the client sets, and is not modelled. *)
Record Response : Type := {
  status_code : Z;
  text : string;
  decoded : option JSON      (* [resp.json()]; [None] when it raises *)
}.

(** [httpx.AsyncClient] as the client constructs it: [base_url],
    [timeout], [headers] and [follow_redirects] are the keyword
    arguments [__init__] passes, not what httpx derives from them (it
    ends the base URL with a slash and adds default headers of its own);
    with them, the cookie jar and whether it has been closed. *)
Record AsyncClient : Type := {
  base_url : string;
  timeout : Q;
  headers : gmap string string;
  follow_redirects : bool;
  cookies : gmap string JSON;
  is_closed : bool
}.

(** What goes on the wire: the call's arguments and the cookies the jar
    attaches to it. *)
Record HttpRequest : Type := {
  rq_method : string;
  rq_path : string;
  rq_headers : option (gmap string string);
  rq_json : option JSON;
  rq_cookies : gmap string JSON
}.

Inductive Reply : Type :=
| Responds (r : Response)
| Fails.

(** The portal, redirects included: its answer to the newest request
    (the head) may depend on everything sent before. *)
Definition Server := list HttpRequest -> Reply.

(** ** The client object *)

Record WebtopClient : Type := {
  _username : string;
  _password : string;
  _data : string;
  _remember_me : bool;
  _biometric_login : string;
  _base_url : string;
  _auto_login : bool;
  _http : AsyncClient;
  _session : option WebtopSession
}.

Definition DEFAULT_BASE_URL : string := "https://webtopserver.smartschool.co.il".

(** [s.rstrip("/")] *)
Fixpoint rstrip_slash (s : string) : string :=
  match s with
  | EmptyString => EmptyString
  | String c s' =>
      match rstrip_slash s' with
      | EmptyString => if Ascii.eqb c "/"%char then EmptyString else String c EmptyString
      | r => String c r
      end
  end.

(** [WebtopClient.__init__]; a keyword argument left out is [None]. *)
Definition __init__ (username password : string)
    (data : option string) (remember_me : option bool)
    (biometric_login : option string) (base_url_arg : option string)
    (timeout_arg : option Q) (auto_login : option bool) : WebtopClient :=
  let data := default "+Aabe7FAdVluG6Lu+0ibrA==" data in
  let remember_me := default false remember_me in
  let biometric_login := default "" biometric_login in
  let base_url_arg := default DEFAULT_BASE_URL base_url_arg in
  let timeout_arg := default (20 # 1)%Q timeout_arg in
  let auto_login := default true auto_login in
  let stripped := rstrip_slash base_url_arg in
  {| _username := username;
     _password := password;
     _data := data;
     _remember_me := remember_me;
     _biometric_login := biometric_login;
     _base_url := stripped;
     _auto_login := auto_login;
     _http := {| base_url := stripped;
                 timeout := timeout_arg;
                 headers := {[ "Content-Type" := "application/json; charset=utf-8" ]};
                 follow_redirects := true;
                 cookies := ∅;
                 is_closed := false |};
     _session := None |}.

(** ** The monad: the client object, the wire, and exceptions *)

Record World : Type := {
  self : WebtopClient;
  wire : list HttpRequest    (* newest first *)
}.

Inductive Outcome (A : Type) : Type :=
| Ret (a : A)
| Raise (e : Exn).
Arguments Ret {A} a.
Arguments Raise {A} e.

Definition M (A : Type) : Type := World -> Outcome A * World.

Definition ret {A} (a : A) : M A := fun w => (Ret a, w).

Definition raise {A} (e : Exn) : M A := fun w => (Raise e, w).

Definition bind {A B} (m : M A) (k : A -> M B) : M B :=
  fun w =>
    match m w with
    | (Ret a, w') => k a w'
    | (Raise e, w') => (Raise e, w')
    end.

Notation "x <- m ;; k" := (bind m (fun x => k))
  (at level 62, m at next level, right associativity).
Notation "m ;;; k" := (bind m (fun _ => k))
  (at level 62, right associativity).

Definition get_self : M WebtopClient := fun w => (Ret (self w), w).

Definition put_self (c : WebtopClient) : M unit :=
  fun w => (Ret tt, {| self := c; wire := wire w |}).

(** [d.get(k)]: the value, [None] when the key is absent; on anything
    but a dict the attribute does not exist. *)
Definition py_get (d : JSON) (k : string) : M JSON :=
  match d with
  | JObj kvs => ret (default JNull (dict_lookup k kvs))
  | _ => raise AttributeError
  end.

(** [self._http.cookies.set(name, value)] *)
Definition set_cookies (name : string) (value : JSON) (c : WebtopClient) : WebtopClient :=
  let h := _http c in
  {| _username := _username c;
     _password := _password c;
     _data := _data c;
     _remember_me := _remember_me c;
     _biometric_login := _biometric_login c;
     _base_url := _base_url c;
     _auto_login := _auto_login c;
     _http := {| base_url := base_url h;
                 timeout := timeout h;
                 headers := headers h;
                 follow_redirects := follow_redirects h;
                 cookies := <[ name := value ]> (cookies h);
                 is_closed := is_closed h |};
     _session := _session c |}.

(** [self._session = s] *)
Definition set_session (s : option WebtopSession) (c : WebtopClient) : WebtopClient :=
  {| _username := _username c;
     _password := _password c;
     _data := _data c;
     _remember_me := _remember_me c;
     _biometric_login := _biometric_login c;
     _base_url := _base_url c;
     _auto_login := _auto_login c;
     _http := _http c;
     _session := s |}.

(** [self._http.aclose()] *)
Definition set_closed (c : WebtopClient) : WebtopClient :=
  let h := _http c in
  {| _username := _username c;
     _password := _password c;
     _data := _data c;
     _remember_me := _remember_me c;
     _biometric_login := _biometric_login c;
     _base_url := _base_url c;
     _auto_login := _auto_login c;
     _http := {| base_url := base_url h;
                 timeout := timeout h;
                 headers := headers h;
                 follow_redirects := follow_redirects h;
                 cookies := cookies h;
                 is_closed := true |};
     _session := _session c |}.

Section Client.

Variable srv : Server.

(** [self._http.request(method, path, headers=..., json=...)]: a closed
    transport refuses; otherwise the request goes on the wire with the
    jar's cookies and the portal answers or the transport fails.  One
    entry of the wire is one call on the transport, whatever requests
    the transport makes of it when it follows redirects.  This is the
    transport for a jar that holds strings: from any other value httpx
    cannot build the [Cookie] header, and raises without sending. *)
Definition http_request (method path : string)
    (hdrs : option (gmap string string)) (json : option JSON) : M Response :=
  fun w =>
    if is_closed (_http (self w)) then (Raise RuntimeError, w)
    else
      let rq := {| rq_method := method;
                   rq_path := path;
                   rq_headers := hdrs;
                   rq_json := json;
                   rq_cookies := cookies (_http (self w)) |} in
      let w' := {| self := self w; wire := rq :: wire w |} in
      match srv (wire w') with
      | Responds r => (Ret r, w')
      | Fails => (Raise TransportError, w')
      end.

(** [self._http.post(path, json=...)] *)
Definition http_post (path : string) (json : JSON) : M Response :=
  http_request "POST" path None (Some json).

(** [resp.json()] outside a [try] *)
Definition resp_json (resp : Response) : M JSON :=
  match decoded resp with
  | Some j => ret j
  | None => raise JSONDecodeError
  end.

(** [WebtopClient.login] *)
Definition login : M WebtopSession :=
  c <- get_self ;;
  resp <- http_post "/server/api/user/LoginByUserNameAndPassword"
            (JObj [ ("UserName", JStr (_username c));
                    ("Password", JStr (_password c));
                    ("Data", JStr (_data c));
                    ("RememberMe", JBool (_remember_me c));
                    ("BiometricLogin", JStr (_biometric_login c)) ]) ;;
  if (status_code resp >=? 400)%Z then
    raise (WebtopLoginError
             [FText "Login failed ("; FInt (status_code resp); FText "): ";
              FText (text resp)])
  else
    body <- match decoded resp with
            | Some b => ret b
            | None => raise (WebtopLoginError [FText "Login response is not JSON: "; FExc])
            end ;;
    status <- py_get body "status" ;;
    if negb (is_True status) then
      errorDescription <- py_get body "errorDescription" ;;
      errorId <- py_get body "errorId" ;;
      raise (WebtopLoginError
               [FText "Login returned status=false. ";
                FText "errorDescription="; FRepr errorDescription;
                FText ", errorId="; FRepr errorId])
    else
      data_field <- py_get body "data" ;;
      let data := py_or data_field (JObj []) in
      tok <- py_get data "token" ;;
      if negb (truthy tok) then
        raise (WebtopLoginError [FText "Login succeeded but data.token is missing"])
      else
        c <- get_self ;;
        put_self (set_cookies "webToken" tok c) ;;;
        userId <- py_get data "userId" ;;
        studentId <- py_get data "studentId" ;;
        schoolId <- py_get data "schoolId" ;;
        schoolName <- py_get data "schoolName" ;;
        firstName <- py_get data "firstName" ;;
        lastName <- py_get data "lastName" ;;
        let s := {| token := tok;
                    user_id := userId;
                    student_id := studentId;
                    school_id := schoolId;
                    school_name := schoolName;
                    first_name := firstName;
                    last_name := lastName;
                    raw_login_data := data |} in
        c <- get_self ;;
        put_self (set_session (Some s) c) ;;;
        ret s.

(** [WebtopClient.ensure_logged_in]; a session object is truthy, so
    [if self._session] asks whether there is one. *)
Definition ensure_logged_in : M unit :=
  c <- get_self ;;
  match _session c with
  | Some _ => ret tt
  | None =>
      if negb (_auto_login c) then
        raise (WebtopLoginError
                 [FText "Not logged in and auto_login=False. Call await client.login()."])
      else
        login ;;; ret tt
  end.

(** [WebtopClient.request]; of the keyword arguments passed through to
    the transport the wrappers use [json] only. *)
Definition request (method path : string)
    (hdrs : option (gmap string string)) (json : option JSON) : M Response :=
  ensure_logged_in ;;;
  let final_headers : gmap string string :=
    match hdrs with
    | Some h => if decide (h = ∅) then ∅ else h ∪ ∅
    | None => ∅
    end in
  resp <- http_request method path (Some final_headers) json ;;
  if (status_code resp >=? 400)%Z then
    raise (WebtopRequestError
             [FText method; FText " "; FText path; FText " failed (";
              FInt (status_code resp); FText "): "; FText (text resp)])
  else
    ret resp.

(** *** Endpoints *)

Definition get_students : M JSON :=
  resp <- request "POST" "/server/api/dashboard/InitDashboard" None
            (Some (JObj [])) ;;
  resp_json resp.

Definition get_homework (encrypted_student_id : string)
    (class_code class_number : Z) : M JSON :=
  resp <- request "POST" "/server/api/dashboard/GetHomeWork" None
            (Some (JObj [ ("id", JStr encrypted_student_id);
                          ("ClassCode", JNum class_code);
                          ("ClassNumber", JNum class_number) ])) ;;
  resp_json resp.

Definition get_discipline_events (encrypted_student_id : string)
    (class_code : Z) : M JSON :=
  resp <- request "POST" "/server/api/dashboard/GetPupilDiciplineEvents" None
            (Some (JObj [ ("id", JStr encrypted_student_id);
                          ("ClassCode", JNum class_code) ])) ;;
  resp_json resp.

Definition get_preview_unread_notifications : M JSON :=
  resp <- request "POST" "/server/api/Menu/GetPreviewUnreadNotifications" None
            (Some (JObj [])) ;;
  resp_json resp.

Definition get_notification_settings (encrypted_student_id : string) : M JSON :=
  resp <- request "POST" "/server/api/Notification/GetNotificationsSettings" None
            (Some (JObj [ ("id", JStr encrypted_student_id) ])) ;;
  resp_json resp.

(** [Optional[bool]] as a JSON value *)
Definition json_of_optional_bool (b : option bool) : JSON :=
  match b with
  | Some b => JBool b
  | None => JNull
  end.

(** A keyword argument left out is [None] and takes its default;
    [has_read] defaults to Python's [None]. *)
Definition get_messages_inbox (page_id label_id : option Z)
    (has_read : option bool) (search_query : option string) : M JSON :=
  let page_id := default 1%Z page_id in
  let label_id := default 0%Z label_id in
  let search_query := default "" search_query in
  resp <- request "POST" "/server/api/messageBox/GetMessagesInbox" None
            (Some (JObj [ ("PageId", JNum page_id);
                          ("LabelId", JNum label_id);
                          ("HasRead", json_of_optional_bool has_read);
                          ("SearchQuery", JStr search_query) ])) ;;
  resp_json resp.

Definition get_pupil_schedule (week_index view_type : option Z)
    (study_year : Z) (encrypted_student_id : string) (class_code : Z)
    (module_id : option Z) : M JSON :=
  let week_index := default 0%Z week_index in
  let view_type := default 0%Z view_type in
  let module_id := default 10%Z module_id in
  resp <- request "POST" "/server/api/PupilCard/GetPupilScheduale" None
            (Some (JObj [ ("weekIndex", JNum week_index);
                          ("viewType", JNum view_type);
                          ("studyYear", JNum study_year);
                          ("studentID", JStr encrypted_student_id);
                          ("classCode", JNum class_code);
                          ("moduleID", JNum module_id) ])) ;;
  resp_json resp.

(** [WebtopClient.close] (and [__aexit__]) *)
Definition close : M unit :=
  c <- get_self ;;
  put_self (set_closed c).

(** [WebtopClient.__aenter__]: hands back the client itself *)
Definition __aenter__ : M WebtopClient := get_self.

(** [WebtopClient.__aexit__]: closes, and returns [None] *)
Definition __aexit__ : M unit := close.

(** [async with client: body].  [__aexit__] runs on every way out of
    the body; as it returns [None], an exception of the body goes on to
    the caller once the client is closed. *)
Definition async_with {A} (body : M A) : M A :=
  fun w =>
    match __aenter__ w with
    | (Raise e, w0) => (Raise e, w0)
    | (Ret _, w0) =>
        match body w0 with
        | (o, w1) =>
            match __aexit__ w1 with
            | (Raise e, w2) => (Raise e, w2)
            | (Ret _, w2) => (o, w2)
            end
        end
    end.

(** The [is_logged_in] property *)
Definition is_logged_in (c : WebtopClient) : bool :=
  match _session c with
  | Some _ => true
  | None => false
  end.

(** The [session] property *)
Definition session : M WebtopSession :=
  c <- get_self ;;
  match _session c with
  | None => raise (WebtopLoginError [FText "Not logged in. Call await client.login() first."])
  | Some s => ret s
  end.

(** *** Calls on the client

    The endpoint wrappers, and then every method of the class, as data,
    to quantify over them. *)
Inductive Endpoint : Type :=
| GetStudents
| GetHomework (encrypted_student_id : string) (class_code class_number : Z)
| GetDisciplineEvents (encrypted_student_id : string) (class_code : Z)
| GetPreviewUnreadNotifications
| GetNotificationSettings (encrypted_student_id : string)
| GetMessagesInbox (page_id label_id : option Z) (has_read : option bool)
    (search_query : option string)
| GetPupilSchedule (week_index view_type : option Z) (study_year : Z)
    (encrypted_student_id : string) (class_code : Z) (module_id : option Z).

Definition call_endpoint (ep : Endpoint) : M JSON :=
  match ep with
  | GetStudents => get_students
  | GetHomework i c n => get_homework i c n
  | GetDisciplineEvents i c => get_discipline_events i c
  | GetPreviewUnreadNotifications => get_preview_unread_notifications
  | GetNotificationSettings i => get_notification_settings i
  | GetMessagesInbox p l h q => get_messages_inbox p l h q
  | GetPupilSchedule w v y i c m => get_pupil_schedule w v y i c m
  end.

Inductive Call : Type :=
| CallLogin
| CallEnsureLoggedIn
| CallRequest (method path : string) (hdrs : option (gmap string string))
    (json : option JSON)
| CallEndpoint (ep : Endpoint)
| CallSession
| CallClose.

(** The world after a call; the caller may have caught what it raised. *)
Definition after (c : Call) (w : World) : World :=
  match c with
  | CallLogin => snd (login w)
  | CallEnsureLoggedIn => snd (ensure_logged_in w)
  | CallRequest m p h j => snd (request m p h j w)
  | CallEndpoint ep => snd (call_endpoint ep w)
  | CallSession => snd (session w)
  | CallClose => snd (close w)
  end.

Definition after_all (cs : list Call) (w : World) : World :=
  fold_left (fun w c => after c w) cs w.

End Client.

(** A freshly constructed client, nothing sent yet. *)
Definition fresh (c : WebtopClient) : World := {| self := c; wire := [] |}.

(** The worlds a program can reach: construct a client, then call it. *)
Inductive reachable (srv : Server) : World -> Prop :=
| reach_init username password data remember_me biometric_login base_url_arg
    timeout_arg auto_login :
    reachable srv (fresh (__init__ username password data remember_me
                            biometric_login base_url_arg timeout_arg auto_login))
| reach_call w c :
    reachable srv w -> reachable srv (after srv c w).

(** ** Checks on concrete exchanges *)

Module Examples.

Definition jane : JSON :=
  JObj [ ("status", JBool true);
         ("data", JObj [ ("token", JStr "T1"); ("userId", JStr "U1");
                         ("firstName", JStr "Jane"); ("lastName", JStr "Doe") ]) ].

Definition ok (j : JSON) : Response :=
  {| status_code := 200; text := ""; decoded := Some j |}.

(** A portal that answers every request with the same response. *)
Definition always (r : Response) : Server := fun _ => Responds r.

Definition alice : WebtopClient :=
  __init__ "alice" "secret" None None None None None None.

End Examples.

(** ** Vocabulary of the statements *)

(** The login request of a client, with the cookies its jar holds. *)
Definition login_request (c : WebtopClient) : HttpRequest :=
  {| rq_method := "POST";
     rq_path := "/server/api/user/LoginByUserNameAndPassword";
     rq_headers := None;
     rq_json := Some (JObj [ ("UserName", JStr (_username c));
                             ("Password", JStr (_password c));
                             ("Data", JStr (_data c));
                             ("RememberMe", JBool (_remember_me c));
                             ("BiometricLogin", JStr (_biometric_login c)) ]);
     rq_cookies := cookies (_http c) |}.

(** [d.get(k)] on the items of a dict *)
Definition dict_get (k : string) (kvs : list (string * JSON)) : JSON :=
  default JNull (dict_lookup k kvs).

(** The session [login] builds from the token and the data object. *)
Definition session_of (tok : JSON) (dkvs : list (string * JSON)) : WebtopSession :=
  {| token := tok;
     user_id := dict_get "userId" dkvs;
     student_id := dict_get "studentId" dkvs;
     school_id := dict_get "schoolId" dkvs;
     school_name := dict_get "schoolName" dkvs;
     first_name := dict_get "firstName" dkvs;
     last_name := dict_get "lastName" dkvs;
     raw_login_data := JObj dkvs |}.

(** The world once the login request is on the wire. *)
Definition posted (w : World) : World :=
  {| self := self w; wire := login_request (self w) :: wire w |}.

(** The outcome of a call made for its effect only. *)
Definition discard {A} (o : Outcome A) : Outcome unit :=
  match o with
  | Ret _ => Ret tt
  | Raise e => Raise e
  end.

(** The call raised [WebtopLoginError]. *)
Definition raises_LoginError {A} (o : Outcome A) : bool :=
  match o with
  | Raise e => is_LoginError e
  | Ret _ => false
  end.

(** The call returned a value. *)
Definition returns {A} (o : Outcome A) : bool :=
  match o with
  | Ret _ => true
  | Raise _ => false
  end.

(** [final_headers] as [request] builds it *)
Definition final_headers_of (hdrs : option (gmap string string)) : gmap string string :=
  match hdrs with
  | Some h => if decide (h = ∅) then ∅ else h ∪ ∅
  | None => ∅
  end.

(** The request [request] puts on the wire for a client. *)
Definition request_sent (method path : string) (hdrs : option (gmap string string))
    (json : option JSON) (c : WebtopClient) : HttpRequest :=
  {| rq_method := method;
     rq_path := path;
     rq_headers := Some (final_headers_of hdrs);
     rq_json := json;
     rq_cookies := cookies (_http c) |}.

(** The message of the [WebtopRequestError] raised for a response. *)
Definition request_error_message (method path : string) (r : Response) : fstring :=
  [FText method; FText " "; FText path; FText " failed (";
   FInt (status_code r); FText "): "; FText (text r)].

(** The path a wrapper posts to. *)
Definition endpoint_path (ep : Endpoint) : string :=
  match ep with
  | GetStudents => "/server/api/dashboard/InitDashboard"
  | GetHomework _ _ _ => "/server/api/dashboard/GetHomeWork"
  | GetDisciplineEvents _ _ => "/server/api/dashboard/GetPupilDiciplineEvents"
  | GetPreviewUnreadNotifications => "/server/api/Menu/GetPreviewUnreadNotifications"
  | GetNotificationSettings _ => "/server/api/Notification/GetNotificationsSettings"
  | GetMessagesInbox _ _ _ _ => "/server/api/messageBox/GetMessagesInbox"
  | GetPupilSchedule _ _ _ _ _ _ => "/server/api/PupilCard/GetPupilScheduale"
  end.

(** The JSON body a wrapper posts. *)
Definition endpoint_body (ep : Endpoint) : JSON :=
  match ep with
  | GetStudents => JObj []
  | GetHomework i c n =>
      JObj [ ("id", JStr i); ("ClassCode", JNum c); ("ClassNumber", JNum n) ]
  | GetDisciplineEvents i c =>
      JObj [ ("id", JStr i); ("ClassCode", JNum c) ]
  | GetPreviewUnreadNotifications => JObj []
  | GetNotificationSettings i => JObj [ ("id", JStr i) ]
  | GetMessagesInbox p l h q =>
      JObj [ ("PageId", JNum (default 1 p)); ("LabelId", JNum (default 0 l));
             ("HasRead", json_of_optional_bool h);
             ("SearchQuery", JStr (default "" q)) ]
  | GetPupilSchedule wk v y i c m =>
      JObj [ ("weekIndex", JNum (default 0 wk)); ("viewType", JNum (default 0 v));
             ("studyYear", JNum y); ("studentID", JStr i);
             ("classCode", JNum c); ("moduleID", JNum (default 10 m)) ]
  end.

(** The client object after a successful login that returned [s]. *)
Definition logged_in_as (s : WebtopSession) (c : WebtopClient) : WebtopClient :=
  set_session (Some s) (set_cookies "webToken" (token s) c).

(** The failure conditions in the specification's words: the HTTP
    status is at least 400; the body does not parse as JSON; the status
    field is not literally true; the response lacks a token field. *)
Definition status_field_not_true (body : JSON) : bool :=
  match body with
  | JObj kvs => negb (is_True (dict_get "status" kvs))
  | _ => true
  end.

Definition lacks_token_field (body : JSON) : bool :=
  match body with
  | JObj kvs =>
      match dict_lookup "data" kvs with
      | Some (JObj dkvs) =>
          match dict_lookup "token" dkvs with
          | Some _ => false
          | None => true
          end
      | _ => true
      end
  | _ => true
  end.

Definition spec_login_fails (r : Response) : bool :=
  (status_code r >=? 400)%Z ||
  match decoded r with
  | None => true
  | Some body => status_field_not_true body || lacks_token_field body
  end.

(** The failure conditions of the code: the token that [login] reads is
    [(body.get("data") or {}).get("token")], and it is tested for
    truthiness. *)
Definition data_of (kvs : list (string * JSON)) : JSON :=
  py_or (dict_get "data" kvs) (JObj []).

Definition token_of (kvs : list (string * JSON)) : JSON :=
  match data_of kvs with
  | JObj dkvs => dict_get "token" dkvs
  | _ => JNull
  end.

Definition login_fails (r : Response) : bool :=
  (status_code r >=? 400)%Z ||
  match decoded r with
  | None => true
  | Some (JObj kvs) =>
      negb (is_True (dict_get "status" kvs)) || negb (truthy (token_of kvs))
  | Some _ => true
  end.

(** The responses on which [login] only ever calls [.get] on dicts: if
    it gets to read the body, the body is an object, and if it gets to
    read the data field, that is an object or falsy. *)
Definition well_shaped (r : Response) : bool :=
  (status_code r >=? 400)%Z ||
  match decoded r with
  | None => true
  | Some (JObj kvs) => negb (is_True (dict_get "status" kvs)) || is_obj (data_of kvs)
  | Some _ => false
  end.

(** The configuration a client is constructed with. *)
Definition configuration (c : WebtopClient) :=
  (_username c, _password c, _data c, _remember_me c, _biometric_login c,
   _base_url c, timeout (_http c), _auto_login c).

(** Two client objects that differ in the session and the cookie jar
    at most. *)
Definition same_but_session_and_cookies (c c' : WebtopClient) : Prop :=
  configuration c' = configuration c /\
  base_url (_http c') = base_url (_http c) /\
  headers (_http c') = headers (_http c) /\
  follow_redirects (_http c') = follow_redirects (_http c) /\
  is_closed (_http c') = is_closed (_http c).

(** A client constructed with [auto_login=False]. *)
Definition manual : WebtopClient :=
  __init__ "alice" "secret" None None None None None (Some false).

(** A portal that accepts the first login and refuses what follows. *)
Definition once_then (r : Response) : Server :=
  fun h =>
    match h with
    | [_] => Responds (Examples.ok Examples.jane)
    | _ => Responds r
    end.


(** [s.endswith("/")] *)
Fixpoint ends_with_slash (s : string) : bool :=
  match s with
  | EmptyString => false
  | String c EmptyString => Ascii.eqb c "/"%char
  | String _ s' => ends_with_slash s'
  end.

(** ["/" * n] *)
Fixpoint slashes (n : nat) : string :=
  match n with
  | O => EmptyString
  | S n' => String "/"%char (slashes n')
  end.

(** The cookie jar that goes with a login state. *)
Definition jar_of_session (s : option WebtopSession) : gmap string JSON :=
  match s with
  | Some s => {[ "webToken" := token s ]}
  | None => ∅
  end.

(** The exceptions [login] lets out. *)
Definition login_exception (e : Exn) : bool :=
  match e with
  | WebtopLoginError _ | AttributeError | TransportError | RuntimeError => true
  | WebtopRequestError _ | JSONDecodeError => false
  end.

(** The outcome of [request] once the portal has answered or failed. *)
Definition checked (method path : string) (reply : Reply) : Outcome Response :=
  match reply with
  | Responds r =>
      if (status_code r >=? 400)%Z
      then Raise (WebtopRequestError (request_error_message method path r))
      else Ret r
  | Fails => Raise TransportError
  end.

(** Calls through the generic [request] helper take the caller's method. *)
Definition method_allowed (c : Call) (m : string) : Prop :=
  m = "POST" \/
  match c with
  | CallRequest m' _ _ _ => m = m'
  | _ => False
  end.

(** [isinstance(v, str)] *)
Definition is_str (v : JSON) : bool :=
  match v with
  | JStr _ => true
  | _ => false
  end.

(** The jar holds strings only.  The transport builds the [Cookie]
    header out of the jar's values and can do so for strings only;
    [http_request] is the transport on such jars, and the statements
    that say a request goes out assume one. *)
Definition jar_strings (jar : gmap string JSON) : Prop :=
  map_Forall (fun _ v => is_str v = true) jar.






(** ** Stepping through the monad *)

#[local] Arguments Z.geb : simpl never.
#[local] Arguments Z.eqb : simpl never.
#[local] Arguments String.eqb : simpl never.
#[local] Arguments dict_lookup : simpl never.

Ltac unfold_monad :=
  unfold bind, ret, raise, get_self, put_self, py_get, resp_json,
    http_post, http_request in *.

(** What [login] leaves behind, whatever the portal answers: a raised
    exception leaves the client object as it was; a returned session is
    stored, with its truthy token in the jar. *)
Lemma login_inv (srv : Server) (w : World) :
  match login srv w with
  | (Ret s, w') =>
      truthy (token s) = true /\
      (exists dkvs, s = session_of (token s) dkvs) /\
      self w' = set_session (Some s) (set_cookies "webToken" (token s) (self w)) /\
      wire w' = login_request (self w) :: wire w
  | (Raise e, w') =>
      self w' = self w /\
      wire w' = if is_closed (_http (self w)) then wire w
                else login_request (self w) :: wire w
  end.
Proof.
  unfold login. unfold_monad. simpl.
  destruct (is_closed (_http (self w))) eqn:Hopen; [ simpl; auto | ].
  fold (login_request (self w)).
  destruct (srv (login_request (self w) :: wire w)) as [r|]; simpl; [ | auto ].
  destruct (status_code r >=? 400)%Z; simpl; [ auto | ].
  destruct (decoded r) as [body|]; simpl; [ | auto ].
  destruct body as [ | | | | | kvs]; simpl; auto.
  destruct (is_True (default JNull (dict_lookup "status" kvs))); simpl; [ | auto ].
  unfold py_or.
  destruct (default JNull (dict_lookup "data" kvs)) as [ | [] | n | s | [] | [] ];
    simpl; auto.
  - destruct (n =? 0)%Z; simpl; auto.
  - destruct (String.eqb s ""); simpl; auto.
  - destruct (truthy (default JNull (dict_lookup "token" (p :: l)))) eqn:Ht;
      simpl; auto.
    repeat split; auto. now exists (p :: l).
Qed.

Lemma login_closed (srv : Server) (w : World) :
  is_closed (_http (self w)) = true ->
  login srv w = (Raise RuntimeError, w).
Proof.
  intros Hc. unfold login. unfold_monad. simpl. now rewrite Hc.
Qed.

(** *** [login], branch by branch

    The transport is open and the portal answers [r] to the login
    request; [posted] is the world once the request is on the wire. *)
Section LoginBranches.

Variable srv : Server.
Variable w : World.
Variable r : Response.
Hypothesis Hopen : is_closed (_http (self w)) = false.
Hypothesis Hresp : srv (login_request (self w) :: wire w) = Responds r.

Ltac login_start :=
  unfold login; unfold_monad; simpl; rewrite Hopen;
  fold (login_request (self w)); rewrite Hresp; simpl.

Lemma login_http_error :
  (status_code r >=? 400)%Z = true ->
  login srv w =
    (Raise (WebtopLoginError
              [FText "Login failed ("; FInt (status_code r); FText "): ";
               FText (text r)]), posted w).
Proof using Hopen Hresp.
  intros Hs. login_start. now rewrite Hs.
Qed.

Lemma login_not_json :
  (status_code r >=? 400)%Z = false ->
  decoded r = None ->
  login srv w =
    (Raise (WebtopLoginError [FText "Login response is not JSON: "; FExc]), posted w).
Proof using Hopen Hresp.
  intros Hs Hd. login_start. now rewrite Hs, Hd.
Qed.

Lemma login_body_not_dict (body : JSON) :
  (status_code r >=? 400)%Z = false ->
  decoded r = Some body ->
  is_obj body = false ->
  login srv w = (Raise AttributeError, posted w).
Proof using Hopen Hresp.
  intros Hs Hd Hb. login_start. rewrite Hs, Hd. simpl.
  destruct body; simpl in *; auto; discriminate.
Qed.

Lemma login_status_not_true (kvs : list (string * JSON)) :
  (status_code r >=? 400)%Z = false ->
  decoded r = Some (JObj kvs) ->
  is_True (dict_get "status" kvs) = false ->
  login srv w =
    (Raise (WebtopLoginError
              [FText "Login returned status=false. ";
               FText "errorDescription="; FRepr (dict_get "errorDescription" kvs);
               FText ", errorId="; FRepr (dict_get "errorId" kvs)]), posted w).
Proof using Hopen Hresp.
  intros Hs Hd Ht. login_start. rewrite Hs, Hd. simpl.
  fold (dict_get "status" kvs). now rewrite Ht.
Qed.

Lemma login_data_not_dict (kvs : list (string * JSON)) :
  (status_code r >=? 400)%Z = false ->
  decoded r = Some (JObj kvs) ->
  is_True (dict_get "status" kvs) = true ->
  is_obj (py_or (dict_get "data" kvs) (JObj [])) = false ->
  login srv w = (Raise AttributeError, posted w).
Proof using Hopen Hresp.
  intros Hs Hd Ht Ho. login_start. rewrite Hs, Hd. simpl.
  fold (dict_get "status" kvs). rewrite Ht. simpl.
  fold (dict_get "data" kvs).
  destruct (py_or (dict_get "data" kvs) (JObj [])); simpl in *; auto; discriminate.
Qed.

Lemma login_token_falsy (kvs dkvs : list (string * JSON)) :
  (status_code r >=? 400)%Z = false ->
  decoded r = Some (JObj kvs) ->
  is_True (dict_get "status" kvs) = true ->
  py_or (dict_get "data" kvs) (JObj []) = JObj dkvs ->
  truthy (dict_get "token" dkvs) = false ->
  login srv w =
    (Raise (WebtopLoginError [FText "Login succeeded but data.token is missing"]),
     posted w).
Proof using Hopen Hresp.
  intros Hs Hd Ht Ho Hk. login_start. rewrite Hs, Hd. simpl.
  fold (dict_get "status" kvs). rewrite Ht. simpl.
  fold (dict_get "data" kvs). rewrite Ho. simpl.
  fold (dict_get "token" dkvs). now rewrite Hk.
Qed.

Lemma login_ok (kvs dkvs : list (string * JSON)) :
  (status_code r >=? 400)%Z = false ->
  decoded r = Some (JObj kvs) ->
  is_True (dict_get "status" kvs) = true ->
  py_or (dict_get "data" kvs) (JObj []) = JObj dkvs ->
  truthy (dict_get "token" dkvs) = true ->
  let s := session_of (dict_get "token" dkvs) dkvs in
  login srv w =
    (Ret s,
     {| self := set_session (Some s)
                  (set_cookies "webToken" (dict_get "token" dkvs) (self w));
        wire := login_request (self w) :: wire w |}).
Proof using Hopen Hresp.
  intros Hs Hd Ht Ho Hk. login_start. rewrite Hs, Hd. simpl.
  fold (dict_get "status" kvs). rewrite Ht. simpl.
  fold (dict_get "data" kvs). rewrite Ho. simpl.
  fold (dict_get "token" dkvs). now rewrite Hk.
Qed.

End LoginBranches.

(** *** [ensure_logged_in] *)

Lemma ensure_session (srv : Server) (w : World) (s : WebtopSession) :
  _session (self w) = Some s ->
  ensure_logged_in srv w = (Ret tt, w).
Proof.
  intros Hs. unfold ensure_logged_in. unfold_monad. simpl. now rewrite Hs.
Qed.

Lemma ensure_no_auto_login (srv : Server) (w : World) :
  _session (self w) = None ->
  _auto_login (self w) = false ->
  ensure_logged_in srv w =
    (Raise (WebtopLoginError
              [FText "Not logged in and auto_login=False. Call await client.login()."]),
     w).
Proof.
  intros Hs Ha. unfold ensure_logged_in. unfold_monad. simpl. now rewrite Hs, Ha.
Qed.

Lemma ensure_auto_login (srv : Server) (w : World) :
  _session (self w) = None ->
  _auto_login (self w) = true ->
  ensure_logged_in srv w = (discard (fst (login srv w)), snd (login srv w)).
Proof.
  intros Hs Ha. unfold ensure_logged_in. unfold_monad. simpl. rewrite Hs, Ha. simpl.
  now destruct (login srv w) as [[s|e] w'].
Qed.

(** *** [request] and the wrappers *)

Lemma request_closed (srv : Server) (method path : string)
    (hdrs : option (gmap string string)) (json : option JSON) (w w1 : World) :
  ensure_logged_in srv w = (Ret tt, w1) ->
  is_closed (_http (self w1)) = true ->
  request srv method path hdrs json w = (Raise RuntimeError, w1).
Proof.
  intros He Hc. unfold request. unfold bind at 1. rewrite He.
  unfold_monad. simpl. now rewrite Hc.
Qed.

Lemma request_raises_early (srv : Server) (method path : string)
    (hdrs : option (gmap string string)) (json : option JSON) (w w1 : World)
    (e : Exn) :
  ensure_logged_in srv w = (Raise e, w1) ->
  request srv method path hdrs json w = (Raise e, w1).
Proof.
  intros He. unfold request. unfold bind at 1. now rewrite He.
Qed.

Lemma request_fails (srv : Server) (method path : string)
    (hdrs : option (gmap string string)) (json : option JSON) (w w1 : World) :
  ensure_logged_in srv w = (Ret tt, w1) ->
  is_closed (_http (self w1)) = false ->
  srv (request_sent method path hdrs json (self w1) :: wire w1) = Fails ->
  request srv method path hdrs json w =
    (Raise TransportError,
     {| self := self w1;
        wire := request_sent method path hdrs json (self w1) :: wire w1 |}).
Proof.
  intros He Hc Hr. unfold request. unfold bind at 1. rewrite He.
  unfold_monad. simpl. rewrite Hc.
  fold (final_headers_of hdrs). fold (request_sent method path hdrs json (self w1)).
  now rewrite Hr.
Qed.

Lemma request_responds (srv : Server) (method path : string)
    (hdrs : option (gmap string string)) (json : option JSON) (w w1 : World)
    (r : Response) :
  ensure_logged_in srv w = (Ret tt, w1) ->
  is_closed (_http (self w1)) = false ->
  srv (request_sent method path hdrs json (self w1) :: wire w1) = Responds r ->
  request srv method path hdrs json w =
    (if (status_code r >=? 400)%Z
     then Raise (WebtopRequestError (request_error_message method path r))
     else Ret r,
     {| self := self w1;
        wire := request_sent method path hdrs json (self w1) :: wire w1 |}).
Proof.
  intros He Hc Hr. unfold request. unfold bind at 1. rewrite He.
  unfold_monad. simpl. rewrite Hc.
  fold (final_headers_of hdrs). fold (request_sent method path hdrs json (self w1)).
  rewrite Hr. simpl. now destruct (status_code r >=? 400)%Z.
Qed.

(** Every wrapper is one [request] followed by [resp.json()]. *)
Lemma call_endpoint_request (srv : Server) (ep : Endpoint) :
  call_endpoint srv ep =
    (resp <- request srv "POST" (endpoint_path ep) None (Some (endpoint_body ep)) ;;
     resp_json resp).
Proof.
  destruct ep; reflexivity.
Qed.

Lemma call_endpoint_run (srv : Server) (ep : Endpoint) (w : World) :
  call_endpoint srv ep w =
    match request srv "POST" (endpoint_path ep) None (Some (endpoint_body ep)) w with
    | (Ret r, w') => resp_json r w'
    | (Raise e, w') => (Raise e, w')
    end.
Proof.
  now rewrite call_endpoint_request.
Qed.

(** *** What a call can do to the world *)

Lemma ensure_cases (srv : Server) (w : World) :
  ensure_logged_in srv w = (Ret tt, w) /\ _session (self w) <> None
  \/ _session (self w) = None /\ snd (ensure_logged_in srv w) = w
  \/ _session (self w) = None /\
     ensure_logged_in srv w = (discard (fst (login srv w)), snd (login srv w)).
Proof.
  destruct (_session (self w)) as [s|] eqn:Hs.
  - left. split; [ now apply ensure_session with s | discriminate ].
  - right. destruct (_auto_login (self w)) eqn:Ha.
    + right. split; [ reflexivity | now apply ensure_auto_login ].
    + left. split; [ reflexivity | ]. now rewrite ensure_no_auto_login.
Qed.

Lemma request_world (srv : Server) (method path : string)
    (hdrs : option (gmap string string)) (json : option JSON) (w : World) :
  let w1 := snd (ensure_logged_in srv w) in
  let w2 := snd (request srv method path hdrs json w) in
  w2 = w1 \/
  w2 = {| self := self w1;
          wire := request_sent method path hdrs json (self w1) :: wire w1 |}.
Proof.
  destruct (ensure_logged_in srv w) as [[[]|e] w1] eqn:He; simpl.
  - destruct (is_closed (_http (self w1))) eqn:Hc.
    + left. now rewrite (request_closed _ _ _ _ _ _ _ He Hc).
    + right.
      destruct (srv (request_sent method path hdrs json (self w1) :: wire w1))
        as [r|] eqn:Hr.
      * now rewrite (request_responds _ _ _ _ _ _ _ _ He Hc Hr).
      * now rewrite (request_fails _ _ _ _ _ _ _ He Hc Hr).
  - left. now rewrite (request_raises_early _ _ _ _ _ _ _ _ He).
Qed.

Lemma endpoint_world (srv : Server) (ep : Endpoint) (w : World) :
  snd (call_endpoint srv ep w) =
  snd (request srv "POST" (endpoint_path ep) None (Some (endpoint_body ep)) w).
Proof.
  rewrite call_endpoint_run.
  destruct (request srv "POST" (endpoint_path ep) None (Some (endpoint_body ep)) w)
    as [[r|e] w']; simpl; [ | reflexivity ].
  unfold resp_json. now destruct (decoded r).
Qed.

Lemma login_client (srv : Server) (w : World) :
  self (snd (login srv w)) = self w \/
  exists s, fst (login srv w) = Ret s /\ truthy (token s) = true /\
            self (snd (login srv w)) = logged_in_as s (self w).
Proof.
  pose proof (login_inv srv w) as H.
  destruct (login srv w) as [[s|e] w']; simpl.
  - right. exists s. destruct H as (Ht & _ & Hc & _). auto.
  - left. tauto.
Qed.

Lemma ensure_client (srv : Server) (w : World) :
  self (snd (ensure_logged_in srv w)) = self w \/
  _session (self w) = None /\
  exists s, truthy (token s) = true /\
            self (snd (ensure_logged_in srv w)) = logged_in_as s (self w).
Proof.
  destruct (ensure_cases srv w) as [[He _] | [[_ He] | [Hn He]]].
  - left. now rewrite He.
  - left. now rewrite He.
  - rewrite He. simpl.
    destruct (login_client srv w) as [H | (s & _ & Ht & H)]; [ now left | right ].
    split; [ assumption | now exists s ].
Qed.

Lemma request_client (srv : Server) (method path : string)
    (hdrs : option (gmap string string)) (json : option JSON) (w : World) :
  self (snd (request srv method path hdrs json w)) =
  self (snd (ensure_logged_in srv w)).
Proof.
  destruct (request_world srv method path hdrs json w) as [H | H];
    simpl in H; now rewrite H.
Qed.

(** A call leaves the client object alone, or closes its transport, or
    logs it in; it logs in only when asked to or when no session exists. *)
Lemma after_client (srv : Server) (c : Call) (w : World) :
  self (after srv c w) = self w
  \/ c = CallClose /\ self (after srv c w) = set_closed (self w)
  \/ (c = CallLogin \/ _session (self w) = None) /\
     exists s, truthy (token s) = true /\
               self (after srv c w) = logged_in_as s (self w).
Proof.
  destruct c as [ | | m p h j | ep | | ]; simpl.
  - destruct (login_client srv w) as [H | (s & _ & Ht & H)]; [ now left | ].
    right; right. split; [ now left | now exists s ].
  - destruct (ensure_client srv w) as [H | [Hn H]]; [ now left | ].
    right; right. split; [ now right | assumption ].
  - rewrite request_client.
    destruct (ensure_client srv w) as [H | [Hn H]]; [ now left | ].
    right; right. split; [ now right | assumption ].
  - rewrite endpoint_world, request_client.
    destruct (ensure_client srv w) as [H | [Hn H]]; [ now left | ].
    right; right. split; [ now right | assumption ].
  - left. unfold session. unfold_monad. simpl. now destruct (_session (self w)).
  - right; left. split; reflexivity.
Qed.




(** *** Jars the transport can send *)

Ltac concrete_jar := apply (bool_decide_unpack _); vm_compute; exact I.



(** ** The login handshake *)



(** The scenario of the specification: after Jane's login, [get_students]
    posts [{}] to the dashboard with cookie [webToken] = ["T1"]. *)
Example jane_then_get_students :
  let w := after_all (Examples.always (Examples.ok Examples.jane))
             [CallLogin; CallEndpoint GetStudents] (fresh Examples.alice) in
  option_map first_name (_session (self w)) = Some (JStr "Jane") /\
  option_map (fun rq => (rq_method rq, rq_path rq, rq_json rq,
                         rq_cookies rq !! "webToken")) (head (wire w)) =
    Some ("POST", "/server/api/dashboard/InitDashboard", Some (JObj []),
          Some (JStr "T1")).
Proof.
  vm_compute. split; reflexivity.
Qed.

(** The scenario of the specification for [get_homework]. *)
Example homework_body :
  let w := after (Examples.always (Examples.ok Examples.jane))
             (CallEndpoint (GetHomework "E1" 5 2)) (fresh Examples.alice) in
  option_map (fun rq => (rq_path rq, rq_json rq)) (head (wire w)) =
    Some ("/server/api/dashboard/GetHomeWork",
          Some (JObj [ ("id", JStr "E1"); ("ClassCode", JNum 5);
                       ("ClassNumber", JNum 2) ])).
Proof.
  vm_compute. reflexivity.
Qed.

(** ** When [login] fails *)

(** C2, as stated, fails: a body with [status] true and the token field
    present but empty meets none of the four stated conditions, and
    [login] raises [WebtopLoginError]. *)
Lemma login_error_iff_spec_conditions_counterexample :
  ~ (forall (srv : Server) (w : World) (r : Response),
       is_closed (_http (self w)) = false ->
       srv (login_request (self w) :: wire w) = Responds r ->
       (raises_LoginError (fst (login srv w)) = true <-> spec_login_fails r = true)).
Proof.
  intros H.
  pose (r := Examples.ok (JObj [ ("status", JBool true);
                                 ("data", JObj [ ("token", JStr "") ]) ])).
  specialize (H (Examples.always r) (fresh Examples.alice) r eq_refl eq_refl).
  destruct H as [H _].
  assert (Hf : spec_login_fails r = true) by (apply H; vm_compute; reflexivity).
  vm_compute in Hf. discriminate.
Qed.

(** C2, amended.  On a response whose body, where [login] reads it, is
    a JSON object with a [data] field that is an object or falsy,
    [login] raises [WebtopLoginError] exactly when the HTTP status is at
    least 400, or the body is not JSON, or [status] is not literally
    [True], or [data.token] is missing or falsy (null, empty string, 0,
    false, empty list or object); otherwise it returns a session.  A
    body with [status] false gives [WebtopLoginError] whatever the HTTP
    status, and with a missing or falsy token the message mentions
    "token". *)
Theorem login_error_iff_code_conditions (srv : Server) (w : World) (r : Response) :
  is_closed (_http (self w)) = false ->
  srv (login_request (self w) :: wire w) = Responds r ->
  (well_shaped r = true ->
     raises_LoginError (fst (login srv w)) = login_fails r /\
     returns (fst (login srv w)) = negb (login_fails r)) /\
  (forall kvs, decoded r = Some (JObj kvs) ->
     dict_lookup "status" kvs = Some (JBool false) ->
     raises_LoginError (fst (login srv w)) = true) /\
  (forall kvs, (status_code r < 400)%Z ->
     decoded r = Some (JObj kvs) ->
     is_True (dict_get "status" kvs) = true ->
     is_obj (data_of kvs) = true ->
     truthy (token_of kvs) = false ->
     exists msg, fst (login srv w) = Raise (WebtopLoginError msg) /\
                 mentions "token" msg = true).
Proof.
  intros Hopen Hresp.
  split; [ | split ].
  - unfold well_shaped, login_fails.
    destruct (status_code r >=? 400)%Z eqn:Hs; simpl.
    { intros _. now rewrite (login_http_error srv w r Hopen Hresp Hs). }
    destruct (decoded r) as [body|] eqn:Hd.
    2:{ intros _. now rewrite (login_not_json srv w r Hopen Hresp Hs Hd). }
    destruct body as [ | | | | | kvs]; try discriminate.
    destruct (is_True (dict_get "status" kvs)) eqn:Ht; simpl.
    2:{ intros _. now rewrite (login_status_not_true srv w r Hopen Hresp kvs Hs Hd Ht). }
    intros Ho. unfold token_of.
    destruct (data_of kvs) as [ | | | | | dkvs] eqn:Hdata; try discriminate.
    destruct (truthy (dict_get "token" dkvs)) eqn:Hk; simpl.
    + pose proof (login_ok srv w r Hopen Hresp kvs dkvs Hs Hd Ht Hdata Hk) as Hl.
      simpl in Hl. now rewrite Hl.
    + now rewrite (login_token_falsy srv w r Hopen Hresp kvs dkvs Hs Hd Ht Hdata Hk).
  - intros kvs Hd Hst.
    destruct (status_code r >=? 400)%Z eqn:Hs.
    { now rewrite (login_http_error srv w r Hopen Hresp Hs). }
    assert (Ht : is_True (dict_get "status" kvs) = false)
      by (unfold dict_get; now rewrite Hst).
    now rewrite (login_status_not_true srv w r Hopen Hresp kvs Hs Hd Ht).
  - intros kvs Hlt Hd Ht Ho Hk.
    assert (Hs : (status_code r >=? 400)%Z = false) by lia.
    unfold token_of in Hk.
    destruct (data_of kvs) as [ | | | | | dkvs] eqn:Hdata; try discriminate.
    rewrite (login_token_falsy srv w r Hopen Hresp kvs dkvs Hs Hd Ht Hdata Hk).
    eexists. split; [ reflexivity | ]. vm_compute. reflexivity.
Qed.

Lemma login_error_iff_code_conditions_witness :
  let r := Examples.ok (JObj [ ("status", JBool true);
                               ("data", JObj [ ("token", JStr "") ]) ]) in
  raises_LoginError (fst (login (Examples.always r) (fresh Examples.alice))) = true /\
  returns (fst (login (Examples.always r) (fresh Examples.alice))) = false.
Proof.
  intros r.
  exact (proj1 (login_error_iff_code_conditions
                  (Examples.always r) (fresh Examples.alice) r eq_refl eq_refl)
               eq_refl).
Defined.

(** C3, as stated, fails: a response with status 300, which the
    transport does not follow, and a good body logs the client in. *)
Lemma login_non_2xx_raises_counterexample :
  ~ (forall (srv : Server) (w : World) (r : Response),
       is_closed (_http (self w)) = false ->
       srv (login_request (self w) :: wire w) = Responds r ->
       ~ (200 <= status_code r < 300)%Z ->
       raises_LoginError (fst (login srv w)) = true).
Proof.
  intros H.
  pose (r := {| status_code := 300; text := ""; decoded := Some Examples.jane |}).
  specialize (H (Examples.always r) (fresh Examples.alice) r eq_refl eq_refl).
  assert (Hn : ~ (200 <= status_code r < 300)%Z) by (simpl; lia).
  specialize (H Hn). vm_compute in H. discriminate.
Qed.

(** C3, amended.  For every login response whose HTTP status is at
    least 400, [login] raises [WebtopLoginError], with the status code
    and the body in its message; a status below 400, the 3xx ones
    included, is no failure by itself: with a good body such a response
    logs the client in. *)
Theorem login_status_400_raises (srv : Server) (w : World) (r : Response) :
  is_closed (_http (self w)) = false ->
  srv (login_request (self w) :: wire w) = Responds r ->
  ((status_code r >= 400)%Z ->
     fst (login srv w) =
       Raise (WebtopLoginError
                [FText "Login failed ("; FInt (status_code r); FText "): ";
                 FText (text r)])) /\
  ((status_code r < 400)%Z ->
     forall kvs dkvs,
       decoded r = Some (JObj kvs) ->
       is_True (dict_get "status" kvs) = true ->
       data_of kvs = JObj dkvs ->
       truthy (dict_get "token" dkvs) = true ->
       returns (fst (login srv w)) = true).
Proof.
  intros Hopen Hresp. split.
  - intros Hge.
    assert (Hs : (status_code r >=? 400)%Z = true) by lia.
    now rewrite (login_http_error srv w r Hopen Hresp Hs).
  - intros Hlt kvs dkvs Hd Ht Hdata Hk.
    assert (Hs : (status_code r >=? 400)%Z = false) by lia.
    pose proof (login_ok srv w r Hopen Hresp kvs dkvs Hs Hd Ht Hdata Hk) as Hl.
    simpl in Hl. now rewrite Hl.
Qed.

Lemma login_status_400_raises_witness :
  let r := {| status_code := 503; text := "down"; decoded := None |} in
  fst (login (Examples.always r) (fresh Examples.alice)) =
    Raise (WebtopLoginError
             [FText "Login failed ("; FInt 503; FText "): "; FText "down"]).
Proof.
  intros r.
  apply (proj1 (login_status_400_raises
                  (Examples.always r) (fresh Examples.alice) r eq_refl eq_refl)).
  simpl. lia.
Defined.

(** ** Lazy login *)

(** C4.  [ensure_logged_in] with a session returns at once: nothing goes
    on the wire and the client is unchanged.  Without a session and with
    auto-login off it raises [WebtopLoginError], again sending nothing.
    Without a session and with auto-login on it is one [login] call: the
    same final world, the same exception if [login] raises, and at most
    the one login request on the wire. *)
Theorem ensure_logged_in_cases (srv : Server) (w : World) :
  (forall s, _session (self w) = Some s ->
     ensure_logged_in srv w = (Ret tt, w)) /\
  (_session (self w) = None -> _auto_login (self w) = false ->
     exists msg, ensure_logged_in srv w = (Raise (WebtopLoginError msg), w)) /\
  (_session (self w) = None -> _auto_login (self w) = true ->
     ensure_logged_in srv w = (discard (fst (login srv w)), snd (login srv w)) /\
     (wire (snd (login srv w)) = wire w \/
      wire (snd (login srv w)) = login_request (self w) :: wire w) /\
     (is_closed (_http (self w)) = false ->
      wire (snd (ensure_logged_in srv w)) = login_request (self w) :: wire w)).
Proof.
  split; [ | split ].
  - intros s Hs. now apply ensure_session with s.
  - intros Hs Ha. eexists. now apply ensure_no_auto_login.
  - intros Hs Ha.
    pose proof (ensure_auto_login srv w Hs Ha) as He.
    split; [ assumption | ].
    pose proof (login_inv srv w) as Hinv.
    split.
    + destruct (login srv w) as [[s|e] w']; simpl; [ right; tauto | ].
      destruct Hinv as [_ ->]. destruct (is_closed (_http (self w))); auto.
    + intros Hopen. rewrite He. simpl.
      destruct (login srv w) as [[s|e] w']; simpl; [ tauto | ].
      destruct Hinv as [_ ->]. now rewrite Hopen.
Qed.

Lemma ensure_logged_in_cases_witness :
  let srv := Examples.always (Examples.ok Examples.jane) in
  let w1 := after srv CallLogin (fresh Examples.alice) in
  ensure_logged_in srv w1 = (Ret tt, w1) /\
  (exists msg, ensure_logged_in srv (fresh manual) =
                 (Raise (WebtopLoginError msg), fresh manual)) /\
  wire (snd (ensure_logged_in srv (fresh Examples.alice))) =
    [login_request Examples.alice].
Proof.
  intros srv w1. split; [ | split ].
  - apply (proj1 (ensure_logged_in_cases srv w1)
             (session_of (JStr "T1")
                [ ("token", JStr "T1"); ("userId", JStr "U1");
                  ("firstName", JStr "Jane"); ("lastName", JStr "Doe") ])).
    vm_compute. reflexivity.
  - apply (proj1 (proj2 (ensure_logged_in_cases srv (fresh manual))));
      reflexivity.
  - apply (proj2 (proj2 (ensure_logged_in_cases srv (fresh Examples.alice))));
      reflexivity.
Defined.

(** ** Authenticated requests *)

(** C5.  Once [ensure_logged_in] has passed and the portal answers the
    request with a status of 400 or more, [request] raises
    [WebtopRequestError] whose message holds the method, the path, the
    status code and the body text, having sent that one request; below
    400 it returns the response as it is.  Every endpoint wrapper
    passes the same exception on, and below 400 returns
    [resp.json()]. *)
Theorem request_status_check (srv : Server) (w w1 : World) :
  ensure_logged_in srv w = (Ret tt, w1) ->
  is_closed (_http (self w1)) = false ->
  (forall method path hdrs json r,
     srv (request_sent method path hdrs json (self w1) :: wire w1) = Responds r ->
     let sent := {| self := self w1;
                    wire := request_sent method path hdrs json (self w1) :: wire w1 |} in
     ((status_code r >= 400)%Z ->
        request srv method path hdrs json w =
          (Raise (WebtopRequestError
                    [FText method; FText " "; FText path; FText " failed (";
                     FInt (status_code r); FText "): "; FText (text r)]), sent)) /\
     ((status_code r < 400)%Z ->
        request srv method path hdrs json w = (Ret r, sent))) /\
  (forall ep r,
     let rq := request_sent "POST" (endpoint_path ep) None
                 (Some (endpoint_body ep)) (self w1) in
     srv (rq :: wire w1) = Responds r ->
     let sent := {| self := self w1; wire := rq :: wire w1 |} in
     ((status_code r >= 400)%Z ->
        call_endpoint srv ep w =
          (Raise (WebtopRequestError
                    [FText "POST"; FText " "; FText (endpoint_path ep);
                     FText " failed ("; FInt (status_code r); FText "): ";
                     FText (text r)]), sent)) /\
     ((status_code r < 400)%Z ->
        call_endpoint srv ep w =
          (match decoded r with
           | Some j => Ret j
           | None => Raise JSONDecodeError
           end, sent))).
Proof.
  intros He Hopen. split.
  - intros method path hdrs json r Hr sent.
    pose proof (request_responds srv method path hdrs json w w1 r He Hopen Hr) as H.
    split; intros Hs.
    + replace (status_code r >=? 400)%Z with true in H by lia. exact H.
    + replace (status_code r >=? 400)%Z with false in H by lia. exact H.
  - intros ep r rq Hr sent.
    pose proof (request_responds srv "POST" (endpoint_path ep) None
                  (Some (endpoint_body ep)) w w1 r He Hopen Hr) as H.
    rewrite call_endpoint_run.
    split; intros Hs.
    + replace (status_code r >=? 400)%Z with true in H by lia. now rewrite H.
    + replace (status_code r >=? 400)%Z with false in H by lia. rewrite H.
      unfold resp_json. now destruct (decoded r).
Qed.

Lemma request_status_check_witness :
  let r := {| status_code := 404; text := "nope"; decoded := None |} in
  fst (call_endpoint (once_then r) GetStudents (fresh Examples.alice)) =
    Raise (WebtopRequestError
             [FText "POST"; FText " "; FText "/server/api/dashboard/InitDashboard";
              FText " failed ("; FInt 404; FText "): "; FText "nope"]).
Proof.
  intros r.
  pose (w1 := snd (ensure_logged_in (once_then r) (fresh Examples.alice))).
  assert (He : ensure_logged_in (once_then r) (fresh Examples.alice) = (Ret tt, w1))
    by (vm_compute; reflexivity).
  assert (Hopen : is_closed (_http (self w1)) = false) by (vm_compute; reflexivity).
  assert (Hr : once_then r
                 (request_sent "POST" (endpoint_path GetStudents) None
                    (Some (endpoint_body GetStudents)) (self w1) :: wire w1)
               = Responds r) by (vm_compute; reflexivity).
  assert (Hs : (status_code r >= 400)%Z) by (simpl; lia).
  rewrite (proj1 (proj2 (request_status_check (once_then r) (fresh Examples.alice)
                           w1 He Hopen)
                    GetStudents r Hr) Hs).
  reflexivity.
Defined.

(** C6.  [get_messages_inbox()] with no arguments posts exactly
    [{PageId: 1, LabelId: 0, HasRead: null, SearchQuery: ""}] to
    [/server/api/messageBox/GetMessagesInbox], and returns the parsed
    JSON body of the response.  The client is logged in or logs in on
    the way, the transport is open, and the jar holds strings, before
    and after the lazy login. *)
Theorem get_messages_inbox_defaults (srv : Server) (w w1 : World) :
  jar_strings (cookies (_http (self w))) ->
  ensure_logged_in srv w = (Ret tt, w1) ->
  jar_strings (cookies (_http (self w1))) ->
  is_closed (_http (self w1)) = false ->
  let rq := {| rq_method := "POST";
               rq_path := "/server/api/messageBox/GetMessagesInbox";
               rq_headers := Some ∅;
               rq_json := Some (JObj [ ("PageId", JNum 1); ("LabelId", JNum 0);
                                       ("HasRead", JNull);
                                       ("SearchQuery", JStr "") ]);
               rq_cookies := cookies (_http (self w1)) |} in
  wire (snd (get_messages_inbox srv None None None None w)) = rq :: wire w1 /\
  (forall r j,
     srv (rq :: wire w1) = Responds r ->
     (status_code r < 400)%Z ->
     decoded r = Some j ->
     fst (get_messages_inbox srv None None None None w) = Ret j).
Proof.
  intros _ He _ Hopen rq.
  change (get_messages_inbox srv None None None None)
    with (call_endpoint srv (GetMessagesInbox None None None None)).
  change rq with (request_sent "POST"
                    (endpoint_path (GetMessagesInbox None None None None)) None
                    (Some (endpoint_body (GetMessagesInbox None None None None)))
                    (self w1)).
  set (ep := GetMessagesInbox None None None None).
  split.
  - rewrite endpoint_world.
    destruct (srv (request_sent "POST" (endpoint_path ep) None
                     (Some (endpoint_body ep)) (self w1) :: wire w1))
      as [r|] eqn:Hr.
    + now rewrite (request_responds _ _ _ _ _ _ _ _ He Hopen Hr).
    + now rewrite (request_fails _ _ _ _ _ _ _ He Hopen Hr).
  - intros r j Hr Hs Hd.
    rewrite call_endpoint_run.
    rewrite (request_responds _ _ _ _ _ _ _ _ He Hopen Hr).
    replace (status_code r >=? 400)%Z with false by lia.
    unfold resp_json. now rewrite Hd.
Qed.

Lemma get_messages_inbox_defaults_witness :
  let srv := Examples.always (Examples.ok Examples.jane) in
  let out := get_messages_inbox srv None None None None (fresh Examples.alice) in
  option_map rq_json (head (wire (snd out))) =
    Some (Some (JObj [ ("PageId", JNum 1); ("LabelId", JNum 0);
                       ("HasRead", JNull); ("SearchQuery", JStr "") ])) /\
  fst out = Ret Examples.jane.
Proof.
  intros srv out.
  pose (w1 := snd (ensure_logged_in srv (fresh Examples.alice))).
  assert (He : ensure_logged_in srv (fresh Examples.alice) = (Ret tt, w1))
    by (vm_compute; reflexivity).
  assert (Hopen : is_closed (_http (self w1)) = false) by (vm_compute; reflexivity).
  assert (Hjar : jar_strings (cookies (_http (self (fresh Examples.alice)))))
    by concrete_jar.
  assert (Hjar1 : jar_strings (cookies (_http (self w1)))) by concrete_jar.
  destruct (get_messages_inbox_defaults srv (fresh Examples.alice) w1
              Hjar He Hjar1 Hopen) as [Hw Hj].
  split.
  - subst out. rewrite Hw. reflexivity.
  - apply (Hj (Examples.ok Examples.jane)); [ reflexivity | simpl; lia | reflexivity ].
Defined.

(** ** The login state *)

Lemma login_returns_session (srv : Server) (w : World) (s : WebtopSession) :
  fst (login srv w) = Ret s ->
  _session (self (snd (login srv w))) = Some s.
Proof.
  pose proof (login_inv srv w) as H.
  destruct (login srv w) as [[s'|e] w']; simpl; [ | discriminate ].
  intros [= ->]. destruct H as (_ & _ & -> & _). reflexivity.
Qed.

Lemma after_session (srv : Server) (c : Call) (w : World) :
  _session (self (after srv c w)) = _session (self w) \/
  exists s, truthy (token s) = true /\ _session (self (after srv c w)) = Some s.
Proof.
  destruct (after_client srv c w) as [H | [[_ H] | [_ (s & Ht & H)]]].
  - left. now rewrite H.
  - left. now rewrite H.
  - right. exists s. split; [ assumption | now rewrite H ].
Qed.

Lemma after_all_logged_in_stays (srv : Server) (cs : list Call) (w : World) :
  is_logged_in (self w) = true ->
  is_logged_in (self (after_all srv cs w)) = true.
Proof.
  revert w. induction cs as [ | c cs IH ]; intros w Hw; [ assumption | ].
  simpl. apply IH. unfold is_logged_in in *.
  destruct (after_session srv c w) as [H | (s & _ & H)]; now rewrite H.
Qed.

(** C7.  The login state only moves from not logged in to logged in: a
    call leaves the session as it is or replaces it with a new session,
    never with none; so a logged-in client stays logged in through every
    sequence of calls, in particular after a [login] that returned. *)
Theorem session_never_lost (srv : Server) :
  (forall c w,
     _session (self (after srv c w)) = _session (self w) \/
     exists s, _session (self (after srv c w)) = Some s) /\
  (forall cs w,
     is_logged_in (self w) = true ->
     is_logged_in (self (after_all srv cs w)) = true) /\
  (forall w s cs,
     fst (login srv w) = Ret s ->
     is_logged_in (self (after_all srv cs (snd (login srv w)))) = true).
Proof.
  split; [ | split ].
  - intros c w. destruct (after_session srv c w) as [H | (s & _ & H)]; eauto.
  - intros cs w. apply after_all_logged_in_stays.
  - intros w s cs Hl. apply after_all_logged_in_stays.
    unfold is_logged_in. now rewrite (login_returns_session srv w s Hl).
Qed.

Lemma session_never_lost_witness :
  let srv := once_then {| status_code := 500; text := "boom"; decoded := None |} in
  is_logged_in
    (self (after_all srv
             [CallEndpoint GetStudents; CallLogin; CallClose; CallEnsureLoggedIn]
             (snd (login srv (fresh Examples.alice))))) = true.
Proof.
  intros srv.
  apply (proj2 (proj2 (session_never_lost srv)) (fresh Examples.alice)
           (session_of (JStr "T1")
              [ ("token", JStr "T1"); ("userId", JStr "U1");
                ("firstName", JStr "Jane"); ("lastName", JStr "Doe") ])).
  reflexivity.
Defined.

(** ** The configuration *)

Lemma after_frame (srv : Server) (c : Call) (w : World) :
  c <> CallClose ->
  same_but_session_and_cookies (self w) (self (after srv c w)).
Proof.
  intros Hc.
  destruct (after_client srv c w) as [H | [[H _] | [_ (s & _ & H)]]].
  - rewrite H. repeat split.
  - contradiction.
  - rewrite H. repeat split.
Qed.

Lemma after_configuration (srv : Server) (c : Call) (w : World) :
  configuration (self (after srv c w)) = configuration (self w).
Proof.
  destruct (after_client srv c w) as [H | [[_ H] | [_ (s & _ & H)]]];
    now rewrite H.
Qed.

(** C8.  The configuration (username, password, data, remember-me,
    biometric-login, base URL, timeout, auto-login) is the same after
    every call and every sequence of calls; [login], [ensure_logged_in],
    [request] and the wrappers change nothing of the client but the
    session and the cookie jar. *)
Theorem configuration_immutable (srv : Server) :
  (forall c w, configuration (self (after srv c w)) = configuration (self w)) /\
  (forall cs w, configuration (self (after_all srv cs w)) = configuration (self w)) /\
  (forall c w, c <> CallClose ->
     same_but_session_and_cookies (self w) (self (after srv c w))).
Proof.
  split; [ | split ].
  - apply after_configuration.
  - intros cs. induction cs as [ | c cs IH ]; intros w; [ reflexivity | ].
    simpl. etransitivity; [ apply IH | apply after_configuration ].
  - apply after_frame.
Qed.

Lemma configuration_immutable_witness :
  let srv := Examples.always (Examples.ok Examples.jane) in
  same_but_session_and_cookies Examples.alice
    (self (after srv (CallEndpoint GetStudents) (fresh Examples.alice))).
Proof.
  intros srv.
  apply (proj2 (proj2 (configuration_immutable srv))
           (CallEndpoint GetStudents) (fresh Examples.alice)).
  discriminate.
Defined.

(** ** Failed logins *)

(** C9.  A [login] that raises [WebtopLoginError] leaves the client
    object as it was: the same session, the same [webToken] cookie, the
    same everything; a session that was there before is still there, so
    [ensure_logged_in] passes without sending anything. *)
Theorem login_failure_atomic (srv : Server) (w w' : World) (msg : fstring) :
  login srv w = (Raise (WebtopLoginError msg), w') ->
  self w' = self w /\
  _session (self w') = _session (self w) /\
  cookies (_http (self w')) !! "webToken" = cookies (_http (self w)) !! "webToken" /\
  (forall s, _session (self w) = Some s ->
     ensure_logged_in srv w' = (Ret tt, w')).
Proof.
  intros Hl. pose proof (login_inv srv w) as H. rewrite Hl in H.
  destruct H as [H _].
  split; [ assumption | ]. rewrite H.
  split; [ reflexivity | ]. split; [ reflexivity | ].
  intros s Hs. apply ensure_session with s. now rewrite H.
Qed.

Lemma login_failure_atomic_witness :
  let srv := once_then (Examples.ok (JObj [ ("status", JBool false);
                                            ("errorDescription", JStr "bad") ])) in
  let w := after srv CallLogin (fresh Examples.alice) in
  option_map token (_session (self (snd (login srv w)))) = Some (JStr "T1") /\
  cookies (_http (self (snd (login srv w)))) !! "webToken" = Some (JStr "T1").
Proof.
  intros srv w.
  destruct (login srv w) as [o w'] eqn:Hl.
  assert (Ho : o = Raise (WebtopLoginError
                            [FText "Login returned status=false. ";
                             FText "errorDescription="; FRepr (JStr "bad");
                             FText ", errorId="; FRepr JNull])).
  { change o with (fst (o, w')). rewrite <- Hl. vm_compute. reflexivity. }
  subst o.
  destruct (login_failure_atomic srv w w' _ Hl) as (_ & Hs & Hk & _).
  simpl. rewrite Hs, Hk. split; vm_compute; reflexivity.
Defined.

(** ** The token of a stored session *)


Lemma reachable_token_truthy (srv : Server) (w : World) :
  reachable srv w ->
  forall s, _session (self w) = Some s -> truthy (token s) = true.
Proof.
  induction 1 as [ | w c Hw IH ]; intros s Hs; [ discriminate | ].
  destruct (after_client srv c w) as [H | [[_ H] | [_ (s' & Ht & H)]]];
    rewrite H in Hs.
  - now apply IH.
  - now apply IH.
  - simpl in Hs. now injection Hs as <-.
Qed.

(** X17.  A login response with [status] true whose [data] is
    missing or null, or whose [data.token] is missing, null or the
    empty string, makes [login] raise [WebtopLoginError] and leave the
    client as it was; and in every reachable state with a session, the
    token [login] gave the session is truthy: not null, not the empty
    string, and if it is a string, a non-empty one. *)
Theorem session_token_truthy (srv : Server) :
  (forall w r kvs,
     is_closed (_http (self w)) = false ->
     srv (login_request (self w) :: wire w) = Responds r ->
     (status_code r < 400)%Z ->
     decoded r = Some (JObj kvs) ->
     dict_lookup "status" kvs = Some (JBool true) ->
     (dict_lookup "data" kvs = None \/
      dict_lookup "data" kvs = Some JNull \/
      exists dkvs, dict_lookup "data" kvs = Some (JObj dkvs) /\
                   (dict_lookup "token" dkvs = None \/
                    dict_lookup "token" dkvs = Some JNull \/
                    dict_lookup "token" dkvs = Some (JStr ""))) ->
     fst (login srv w) =
       Raise (WebtopLoginError [FText "Login succeeded but data.token is missing"]) /\
     self (snd (login srv w)) = self w) /\
  (forall w s,
     reachable srv w ->
     _session (self w) = Some s ->
     truthy (token s) = true /\
     token s <> JNull /\
     forall T, token s = JStr T -> T <> "").
Proof.
  split.
  - intros w r kvs Hopen Hresp Hlt Hd Hst Hcases.
    assert (Hs : (status_code r >=? 400)%Z = false) by lia.
    assert (Ht : is_True (dict_get "status" kvs) = true)
      by (unfold dict_get; now rewrite Hst).
    assert (Hfalsy : exists dkvs, py_or (dict_get "data" kvs) (JObj []) = JObj dkvs /\
                                  truthy (dict_get "token" dkvs) = false).
    { unfold dict_get, py_or.
      destruct Hcases as [-> | [-> | (dkvs & -> & Hk)]]; simpl.
      - now exists [].
      - now exists [].
      - destruct dkvs as [ | p l ]; [ now exists [] | ].
        exists (p :: l). split; [ reflexivity | ].
        destruct Hk as [-> | [-> | ->]]; reflexivity. }
    destruct Hfalsy as (dkvs & Ho & Hk).
    now rewrite (login_token_falsy srv w r Hopen Hresp kvs dkvs Hs Hd Ht Ho Hk).
  - intros w s Hr Hs.
    pose proof (reachable_token_truthy srv w Hr s Hs) as Ht.
    split; [ assumption | ]. split.
    + intros E. rewrite E in Ht. discriminate.
    + intros T E ->. rewrite E in Ht. discriminate.
Qed.

Lemma session_token_truthy_witness :
  let srv := Examples.always (Examples.ok Examples.jane) in
  let w := after srv (CallEndpoint GetStudents) (fresh Examples.alice) in
  option_map (fun s => truthy (token s)) (_session (self w)) = Some true.
Proof.
  intros srv w.
  assert (Hr : reachable srv w).
  { apply reach_call. unfold Examples.alice. apply reach_init. }
  destruct (_session (self w)) as [s|] eqn:Hs; [ | vm_compute in Hs; discriminate ].
  simpl. f_equal.
  exact (proj1 (proj2 (session_token_truthy srv) w s Hr Hs)).
Defined.

(** ** Construction *)

Lemma rstrip_slash_empty_iff (s : string) :
  rstrip_slash s = EmptyString -> exists n, s = slashes n.
Proof.
  induction s as [ | c s IH ]; simpl.
  - intros _. now exists O.
  - destruct (rstrip_slash s) eqn:Hr; [ | discriminate ].
    destruct (Ascii.eqb c "/"%char) eqn:Hc; [ | discriminate ].
    intros _. destruct (IH eq_refl) as [n ->].
    apply Ascii.eqb_eq in Hc. subst c. now exists (S n).
Qed.

Lemma rstrip_slash_split (s : string) :
  exists n, s = String.append (rstrip_slash s) (slashes n).
Proof.
  induction s as [ | c s IH ]; simpl.
  - now exists O.
  - destruct (rstrip_slash s) as [ | c' r ] eqn:Hr.
    + destruct (rstrip_slash_empty_iff s Hr) as [n ->].
      destruct (Ascii.eqb c "/"%char) eqn:Hc.
      * apply Ascii.eqb_eq in Hc. subst c. now exists (S n).
      * now exists n.
    + destruct IH as [n IH]. exists n. simpl. now rewrite IH at 1.
Qed.

Lemma rstrip_slash_no_slash (s : string) :
  ends_with_slash (rstrip_slash s) = false.
Proof.
  induction s as [ | c s IH ]; simpl; [ reflexivity | ].
  destruct (rstrip_slash s) as [ | c' r ] eqn:Hr.
  - destruct (Ascii.eqb c "/"%char) eqn:Hc; simpl; [ reflexivity | assumption ].
  - exact IH.
Qed.

Lemma rstrip_slash_fixed (s : string) :
  ends_with_slash s = false -> rstrip_slash s = s.
Proof.
  induction s as [ | c s IH ]; simpl; [ reflexivity | ].
  destruct s as [ | c' s' ].
  - simpl. now intros ->.
  - intros H. rewrite (IH H). reflexivity.
Qed.

(** X1.  Whatever base URL the client is constructed with, the stored
    one is that URL less its trailing slashes, all of them: it never
    ends with a slash, the argument is the stored URL followed by
    slashes only, the transport gets the same stored URL, and a URL
    without a trailing slash is stored as given. *)
Theorem init_base_url (username password : string) (data : option string)
    (remember_me : option bool) (biometric_login : option string)
    (url : string) (timeout_arg : option Q) (auto_login : option bool) :
  let c := __init__ username password data remember_me biometric_login
             (Some url) timeout_arg auto_login in
  ends_with_slash (_base_url c) = false /\
  (exists n, url = String.append (_base_url c) (slashes n)) /\
  base_url (_http c) = _base_url c /\
  (ends_with_slash url = false -> _base_url c = url).
Proof.
  simpl. split; [ apply rstrip_slash_no_slash | ].
  split; [ apply rstrip_slash_split | ].
  split; [ reflexivity | apply rstrip_slash_fixed ].
Qed.

Lemma init_base_url_witness :
  _base_url (__init__ "u" "p" None None None (Some "https://portal.example/api")
               None None) = "https://portal.example/api".
Proof.
  apply (proj2 (proj2 (proj2
           (init_base_url "u" "p" None None None "https://portal.example/api"
              None None)))).
  reflexivity.
Defined.

(** ** Invariants of the reachable worlds *)

Lemma set_cookies_jar (s : WebtopSession) (c : WebtopClient) :
  cookies (_http c) = jar_of_session (_session c) ->
  cookies (_http (logged_in_as s c)) = jar_of_session (Some s).
Proof.
  simpl. intros ->. destruct (_session c) as [s0|]; simpl.
  - apply insert_singleton_eq.
  - apply insert_empty.
Qed.

(** X2.  In every world a program can reach, the cookie jar goes with
    the login state: empty while there is no session, and holding the
    one cookie [webToken], with the session's token, once there is one.
    No stale token and no other cookie is ever kept. *)
Theorem jar_mirrors_session (srv : Server) (w : World) :
  reachable srv w ->
  cookies (_http (self w)) = jar_of_session (_session (self w)).
Proof.
  induction 1 as [ | w c Hw IH ]; [ reflexivity | ].
  destruct (after_client srv c w) as [H | [[_ H] | [_ (s & _ & H)]]]; rewrite H.
  - exact IH.
  - exact IH.
  - now apply set_cookies_jar.
Qed.

Lemma jar_mirrors_session_witness :
  let srv := once_then (Examples.ok Examples.jane) in
  let w := after_all srv [CallEndpoint GetStudents; CallLogin] (fresh Examples.alice) in
  cookies (_http (self w)) = jar_of_session (_session (self w)).
Proof.
  intros srv w. apply (jar_mirrors_session srv w).
  change (reachable srv (after srv CallLogin
                           (after srv (CallEndpoint GetStudents)
                              (fresh Examples.alice)))).
  apply reach_call. apply reach_call. unfold Examples.alice. apply reach_init.
Defined.

(** ** What [login] raises *)

Ltac close_raise :=
  intros [= <- <-]; repeat split;
  try reflexivity; try discriminate;
  try (intros; congruence); try (intros [? ?]; congruence).

(** X4.  Whatever [login] raises, the client object is as it was
    before the call.  What it raises is [WebtopLoginError], or the
    [AttributeError] of a [.get] on a non-dict, or what the transport
    raised; never [WebtopRequestError], and never the decoding error of
    [resp.json()], which the [try] turns into [WebtopLoginError].  It
    raises the closed-transport error exactly on a closed transport,
    and the transport's failure exactly when an open transport gets no
    response. *)
Theorem login_raise_any (srv : Server) (w w' : World) (e : Exn) :
  login srv w = (Raise e, w') ->
  self w' = self w /\
  login_exception e = true /\
  (e = RuntimeError <-> is_closed (_http (self w)) = true) /\
  (e = TransportError <->
   is_closed (_http (self w)) = false /\
   srv (login_request (self w) :: wire w) = Fails).
Proof.
  unfold login. unfold_monad. simpl.
  destruct (is_closed (_http (self w))) eqn:Hopen; [ close_raise | ].
  fold (login_request (self w)).
  destruct (srv (login_request (self w) :: wire w)) as [r|] eqn:Hr; simpl;
    [ | close_raise ].
  destruct (status_code r >=? 400)%Z; simpl; [ close_raise | ].
  destruct (decoded r) as [body|]; simpl; [ | close_raise ].
  destruct body as [ | | | | | kvs]; simpl; try close_raise.
  destruct (is_True (default JNull (dict_lookup "status" kvs))); simpl;
    [ | close_raise ].
  destruct (py_or (default JNull (dict_lookup "data" kvs)) (JObj []))
    as [ | | | | | dkvs]; simpl; try close_raise.
  destruct (truthy (default JNull (dict_lookup "token" dkvs))); simpl;
    [ discriminate | close_raise ].
Qed.

Lemma login_raise_any_witness :
  let srv : Server := fun _ => Fails in
  self (snd (login srv (fresh Examples.alice))) = Examples.alice.
Proof.
  intros srv.
  exact (proj1 (login_raise_any srv (fresh Examples.alice)
                  (posted (fresh Examples.alice)) TransportError eq_refl)).
Defined.

(** X5.  When the portal answers the login request, [login] raises
    [AttributeError] exactly on the responses it reads [.get] from
    something that is no dict: a status below 400 with a JSON body that
    is not an object, or with [status] true and a truthy [data] that is
    not an object.  The request has been sent and the client is
    unchanged. *)
Theorem login_attribute_error_iff (srv : Server) (w : World) (r : Response) :
  is_closed (_http (self w)) = false ->
  srv (login_request (self w) :: wire w) = Responds r ->
  (fst (login srv w) = Raise AttributeError <-> well_shaped r = false) /\
  (well_shaped r = false -> login srv w = (Raise AttributeError, posted w)).
Proof.
  intros Hopen Hresp.
  assert (Hmain : if well_shaped r
                  then fst (login srv w) <> Raise AttributeError
                  else login srv w = (Raise AttributeError, posted w)).
  { unfold well_shaped.
    destruct (status_code r >=? 400)%Z eqn:Hs; simpl.
    { now rewrite (login_http_error srv w r Hopen Hresp Hs). }
    destruct (decoded r) as [body|] eqn:Hd.
    2:{ now rewrite (login_not_json srv w r Hopen Hresp Hs Hd). }
    destruct body as [ | | | | | kvs];
      try (apply (login_body_not_dict srv w r Hopen Hresp _ Hs Hd); reflexivity).
    destruct (is_True (dict_get "status" kvs)) eqn:Ht; simpl.
    2:{ now rewrite (login_status_not_true srv w r Hopen Hresp kvs Hs Hd Ht). }
    destruct (is_obj (data_of kvs)) eqn:Ho.
    - destruct (data_of kvs) as [ | | | | | dkvs] eqn:Hdata; try discriminate.
      destruct (truthy (dict_get "token" dkvs)) eqn:Hk.
      + pose proof (login_ok srv w r Hopen Hresp kvs dkvs Hs Hd Ht Hdata Hk) as Hl.
        simpl in Hl. now rewrite Hl.
      + now rewrite (login_token_falsy srv w r Hopen Hresp kvs dkvs Hs Hd Ht Hdata Hk).
    - apply (login_data_not_dict srv w r Hopen Hresp kvs Hs Hd Ht Ho). }
  destruct (well_shaped r); split.
  - split; [ contradiction | discriminate ].
  - discriminate.
  - split; [ reflexivity | intros _; now rewrite Hmain ].
  - intros _. exact Hmain.
Qed.

Lemma login_attribute_error_iff_witness :
  let r := Examples.ok (JList []) in
  login (Examples.always r) (fresh Examples.alice) =
    (Raise AttributeError, posted (fresh Examples.alice)).
Proof.
  intros r.
  apply (proj2 (login_attribute_error_iff (Examples.always r)
                  (fresh Examples.alice) r eq_refl eq_refl)).
  reflexivity.
Defined.

(** ** The [session] property and [ensure_logged_in] *)

(** X6.  The [session] property never changes the world; it returns the
    stored session exactly when [is_logged_in] holds and raises
    [WebtopLoginError] otherwise; right after a [login] that returned a
    session it returns that very session. *)
Theorem session_property (srv : Server) (w : World) :
  snd (session w) = w /\
  returns (fst (session w)) = is_logged_in (self w) /\
  raises_LoginError (fst (session w)) = negb (is_logged_in (self w)) /\
  (forall s, _session (self w) = Some s -> fst (session w) = Ret s) /\
  (forall s, fst (login srv w) = Ret s ->
     session (snd (login srv w)) = (Ret s, snd (login srv w))).
Proof.
  assert (Hs : forall w0 s, _session (self w0) = Some s -> session w0 = (Ret s, w0)).
  { intros w0 s H. unfold session. unfold_monad. simpl. now rewrite H. }
  unfold session, is_logged_in. unfold_monad. simpl.
  destruct (_session (self w)) as [s0|] eqn:H0; simpl.
  - repeat split; auto.
    + now intros s [= ->].
    + intros s Hl. apply Hs. now apply login_returns_session.
  - repeat split; auto.
    + discriminate.
    + intros s Hl. apply Hs. now apply login_returns_session.
Qed.

Lemma session_property_witness :
  let srv := Examples.always (Examples.ok Examples.jane) in
  option_map first_name
    (match fst (session (snd (login srv (fresh Examples.alice)))) with
     | Ret s => Some s
     | Raise _ => None
     end) = Some (JStr "Jane").
Proof.
  intros srv.
  rewrite (proj2 (proj2 (proj2 (proj2 (session_property srv (fresh Examples.alice)))))
             (session_of (JStr "T1")
                [ ("token", JStr "T1"); ("userId", JStr "U1");
                  ("firstName", JStr "Jane"); ("lastName", JStr "Doe") ])
             eq_refl).
  reflexivity.
Defined.

Lemma ensure_returns_logged_in (srv : Server) (w w1 : World) :
  ensure_logged_in srv w = (Ret tt, w1) ->
  exists s, _session (self w1) = Some s.
Proof.
  intros He.
  destruct (ensure_cases srv w) as [[He' Hs] | [[Hn He'] | [Hn He']]].
  - rewrite He in He'. injection He' as ->.
    destruct (_session (self w)) as [s|]; [ now exists s | contradiction ].
  - destruct (_auto_login (self w)) eqn:Ha.
    + rewrite (ensure_auto_login srv w Hn Ha) in He.
      destruct (fst (login srv w)) as [s|e] eqn:Hl; [ | discriminate ].
      injection He as <-. exists s. now apply login_returns_session.
    + rewrite (ensure_no_auto_login srv w Hn Ha) in He. discriminate.
  - rewrite He' in He.
    destruct (fst (login srv w)) as [s|e] eqn:Hl; [ | discriminate ].
    injection He as <-. exists s. now apply login_returns_session.
Qed.

(** X7.  When [ensure_logged_in] returns, the client is logged in, and
    calling it again changes nothing and sends nothing: a second call
    returns at once in the very same world. *)
Theorem ensure_logged_in_idempotent (srv : Server) (w w1 : World) :
  ensure_logged_in srv w = (Ret tt, w1) ->
  is_logged_in (self w1) = true /\
  ensure_logged_in srv w1 = (Ret tt, w1).
Proof.
  intros He. destruct (ensure_returns_logged_in srv w w1 He) as [s Hs].
  split.
  - unfold is_logged_in. now rewrite Hs.
  - now apply ensure_session with s.
Qed.

Lemma ensure_logged_in_idempotent_witness :
  let srv := Examples.always (Examples.ok Examples.jane) in
  let w1 := snd (ensure_logged_in srv (fresh Examples.alice)) in
  ensure_logged_in srv w1 = (Ret tt, w1).
Proof.
  intros srv w1.
  apply (proj2 (ensure_logged_in_idempotent srv (fresh Examples.alice) w1 eq_refl)).
Defined.

(** ** Requests *)


Lemma request_run (srv : Server) (method path : string)
    (hdrs : option (gmap string string)) (json : option JSON) (w w1 : World) :
  ensure_logged_in srv w = (Ret tt, w1) ->
  is_closed (_http (self w1)) = false ->
  request srv method path hdrs json w =
    (checked method path
       (srv (request_sent method path hdrs json (self w1) :: wire w1)),
     {| self := self w1;
        wire := request_sent method path hdrs json (self w1) :: wire w1 |}).
Proof.
  intros He Hopen.
  destruct (srv (request_sent method path hdrs json (self w1) :: wire w1))
    as [r|] eqn:Hr.
  - now rewrite (request_responds _ _ _ _ _ _ _ _ He Hopen Hr).
  - now rewrite (request_fails _ _ _ _ _ _ _ He Hopen Hr).
Qed.





(** X10.  Without a session nothing authenticated goes out.  With
    auto-login off, [request] and every wrapper raise
    [WebtopLoginError] and the world is untouched.  With auto-login on
    and a [login] that raises, they raise what [login] raised, in the
    world [login] left: the client object unchanged, and on the wire at
    most the login request, never the caller's. *)
Theorem request_not_logged_in (srv : Server) (w : World) :
  _session (self w) = None ->
  (_auto_login (self w) = false ->
     exists msg,
       (forall method path hdrs json,
          request srv method path hdrs json w = (Raise (WebtopLoginError msg), w)) /\
       (forall ep, call_endpoint srv ep w = (Raise (WebtopLoginError msg), w))) /\
  (_auto_login (self w) = true ->
     forall e w', login srv w = (Raise e, w') ->
       (forall method path hdrs json,
          request srv method path hdrs json w = (Raise e, w')) /\
       (forall ep, call_endpoint srv ep w = (Raise e, w')) /\
       self w' = self w /\
       (wire w' = wire w \/ wire w' = login_request (self w) :: wire w)).
Proof.
  intros Hn. split.
  - intros Ha. eexists.
    pose proof (ensure_no_auto_login srv w Hn Ha) as He.
    split.
    + intros method path hdrs json.
      apply (request_raises_early _ _ _ _ _ _ _ _ He).
    + intros ep. rewrite call_endpoint_run.
      now rewrite (request_raises_early _ _ _ _ _ _ _ _ He).
  - intros Ha e w' Hl.
    pose proof (ensure_auto_login srv w Hn Ha) as He.
    rewrite Hl in He. simpl in He.
    pose proof (login_inv srv w) as Hinv. rewrite Hl in Hinv.
    destruct Hinv as [Hself Hwire].
    split; [ | split; [ | split ] ].
    + intros method path hdrs json.
      apply (request_raises_early _ _ _ _ _ _ _ _ He).
    + intros ep. rewrite call_endpoint_run.
      now rewrite (request_raises_early _ _ _ _ _ _ _ _ He).
    + assumption.
    + rewrite Hwire. destruct (is_closed (_http (self w))); auto.
Qed.

Lemma request_not_logged_in_witness :
  let srv := Examples.always {| status_code := 403; text := "no"; decoded := None |} in
  (exists msg, call_endpoint srv GetStudents (fresh manual) =
                 (Raise (WebtopLoginError msg), fresh manual)) /\
  call_endpoint srv GetStudents (fresh Examples.alice) =
    (Raise (WebtopLoginError
              [FText "Login failed ("; FInt 403; FText "): "; FText "no"]),
     posted (fresh Examples.alice)).
Proof.
  intros srv. split.
  - destruct (proj1 (request_not_logged_in srv (fresh manual) eq_refl) eq_refl)
      as (msg & _ & H).
    exists msg. apply H.
  - apply (proj2 (request_not_logged_in srv (fresh Examples.alice) eq_refl) eq_refl
             _ _ eq_refl).
Defined.

(** ** What goes on the wire *)

Lemma ensure_wire (srv : Server) (w : World) :
  wire (snd (ensure_logged_in srv w)) = wire w \/
  _session (self w) = None /\
  wire (snd (ensure_logged_in srv w)) = login_request (self w) :: wire w.
Proof.
  destruct (ensure_cases srv w) as [[He _] | [[_ He] | [Hn He]]].
  - left. now rewrite He.
  - left. now rewrite He.
  - rewrite He. simpl. pose proof (login_inv srv w) as H.
    destruct (login srv w) as [[s|e] w']; simpl.
    + right. tauto.
    + destruct H as [_ ->]. destruct (is_closed (_http (self w))); auto.
Qed.

Ltac wire_side :=
  repeat split; auto;
  try (simpl; lia);
  try (intros; contradiction);
  try (intros [? | ?]; discriminate);
  try (constructor; [ left; reflexivity | constructor ]).

Lemma request_wire (srv : Server) (method path : string)
    (hdrs : option (gmap string string)) (json : option JSON) (w : World) :
  exists sent,
    wire (snd (request srv method path hdrs json w)) = (sent ++ wire w)%list /\
    (length sent <= 2)%nat /\
    (_session (self w) <> None -> (length sent <= 1)%nat) /\
    Forall (fun rq => rq_method rq = "POST" \/ rq_method rq = method) sent.
Proof.
  assert (He : exists sent0,
             wire (snd (ensure_logged_in srv w)) = (sent0 ++ wire w)%list /\
             (length sent0 <= 1)%nat /\
             (_session (self w) <> None -> sent0 = []) /\
             Forall (fun rq => rq_method rq = "POST" \/ rq_method rq = method) sent0).
  { destruct (ensure_wire srv w) as [H | [Hn H]].
    - exists []. wire_side.
    - exists [login_request (self w)]. wire_side. }
  destruct He as (sent0 & Hw0 & Hlen0 & Hnil0 & Hm0).
  destruct (request_world srv method path hdrs json w) as [H | H]; simpl in H;
    rewrite H.
  - exists sent0. split; [ assumption | ]. split; [ lia | ].
    split; [ | assumption ].
    intros Hs. rewrite (Hnil0 Hs). simpl. lia.
  - exists (request_sent method path hdrs json
              (self (snd (ensure_logged_in srv w))) :: sent0).
    simpl. rewrite Hw0. split; [ reflexivity | ]. split; [ lia | ].
    split.
    + intros Hs. rewrite (Hnil0 Hs). simpl. lia.
    + constructor; [ now right | assumption ].
Qed.

(** X11.  How often a call turns to the transport.  The wire records
    the client's calls on the transport, one entry per call, whatever
    the transport makes of a call when it follows redirects.  A call on
    the client only ever adds to it, and little: it makes at most two
    calls on the transport, the login and its own, and at most one when
    a session exists; there is no retry.  [session] and [close] make
    none.  Every call the client makes of its own accord asks for a
    POST: another method appears only where the caller of [request]
    asked for it. *)
Theorem call_sends_at_most_two (srv : Server) (c : Call) (w : World) :
  exists sent,
    wire (after srv c w) = (sent ++ wire w)%list /\
    (length sent <= 2)%nat /\
    (_session (self w) <> None -> (length sent <= 1)%nat) /\
    (c = CallSession \/ c = CallClose -> sent = []) /\
    Forall (fun rq => method_allowed c (rq_method rq)) sent.
Proof.
  destruct c as [ | | m p h j | ep | | ]; simpl.
  - pose proof (login_inv srv w) as H.
    destruct (login srv w) as [[s|e] w']; simpl.
    + destruct H as (_ & _ & _ & ->). exists [login_request (self w)]. wire_side.
    + destruct H as [_ ->]. destruct (is_closed (_http (self w))).
      * exists []. wire_side.
      * exists [login_request (self w)]. wire_side.
  - destruct (ensure_wire srv w) as [H | [Hn H]]; rewrite H.
    + exists []. wire_side.
    + exists [login_request (self w)]. wire_side.
  - destruct (request_wire srv m p h j w) as (sent & Hw & Hl & Hs & Hm).
    exists sent. split; [ assumption | ]. split; [ assumption | ].
    split; [ assumption | ]. split; [ intros [H | H]; discriminate | ].
    eapply Forall_impl; [ exact Hm | ]. simpl.
    intros rq [H | H]; [ now left | now right ].
  - rewrite endpoint_world.
    destruct (request_wire srv "POST" (endpoint_path ep) None
                (Some (endpoint_body ep)) w) as (sent & Hw & Hl & Hs & Hm).
    exists sent. split; [ assumption | ]. split; [ assumption | ].
    split; [ assumption | ]. split; [ intros [H | H]; discriminate | ].
    eapply Forall_impl; [ exact Hm | ]. simpl.
    intros rq [H | H]; now left.
  - exists []. wire_side.
    unfold session. unfold_monad. simpl. now destruct (_session (self w)).
  - exists []. wire_side.
Qed.

Lemma call_sends_at_most_two_witness :
  let srv := Examples.always (Examples.ok Examples.jane) in
  let w := after srv CallLogin (fresh Examples.alice) in
  (length (wire (after srv (CallEndpoint GetStudents) w)) <= 2)%nat.
Proof.
  intros srv w.
  destruct (call_sends_at_most_two srv (CallEndpoint GetStudents) w)
    as (sent & Hw & _ & Hs & _).
  rewrite Hw, length_app.
  assert (Hne : _session (self w) <> None) by discriminate.
  specialize (Hs Hne). change (length (wire w)) with 1%nat. lia.
Defined.

(** ** Closing *)

Lemma set_closed_closed (c : WebtopClient) :
  is_closed (_http c) = true -> set_closed c = c.
Proof.
  destruct c as [u p d rm b bu al h s]. destruct h as [hb ht hh hf hc hcl].
  simpl. now intros ->.
Qed.

Lemma ensure_closed (srv : Server) (w : World) :
  is_closed (_http (self w)) = true ->
  snd (ensure_logged_in srv w) = w.
Proof.
  intros Hc.
  destruct (ensure_cases srv w) as [[He _] | [[_ He] | [_ He]]]; rewrite He;
    try reflexivity.
  now rewrite (login_closed srv w Hc).
Qed.

Lemma request_closed_world (srv : Server) (method path : string)
    (hdrs : option (gmap string string)) (json : option JSON) (w : World) :
  is_closed (_http (self w)) = true ->
  snd (request srv method path hdrs json w) = w.
Proof.
  intros Hc. pose proof (ensure_closed srv w Hc) as Hw.
  destruct (ensure_logged_in srv w) as [[[]|e] w1] eqn:He; simpl in Hw; subst w1.
  - now rewrite (request_closed _ _ _ _ _ _ _ He Hc).
  - now rewrite (request_raises_early _ _ _ _ _ _ _ _ He).
Qed.

Lemma after_closed (srv : Server) (c : Call) (w : World) :
  is_closed (_http (self w)) = true ->
  after srv c w = w.
Proof.
  intros Hc. destruct c as [ | | m p h j | ep | | ]; simpl.
  - now rewrite (login_closed srv w Hc).
  - now apply ensure_closed.
  - now apply request_closed_world.
  - rewrite endpoint_world. now apply request_closed_world.
  - unfold session. unfold_monad. simpl. now destruct (_session (self w)).
  - rewrite (set_closed_closed _ Hc). now destruct w.
Qed.

Lemma after_all_closed (srv : Server) (cs : list Call) (w : World) :
  is_closed (_http (self w)) = true ->
  after_all srv cs w = w.
Proof.
  intros Hc. induction cs as [ | c cs IH ]; [ reflexivity | ].
  simpl. rewrite (after_closed srv c w Hc). exact IH.
Qed.

(** X12.  [close] always returns, sends nothing, and keeps the session,
    the cookies and the configuration: closing is no logout.  It is
    final: no method reopens the transport, so whatever is called after
    it, nothing more goes on the wire and the login state stays as it
    was at closing; a second [close] changes nothing. *)
Theorem close_is_final (srv : Server) (w : World) :
  fst (close w) = Ret tt /\
  wire (snd (close w)) = wire w /\
  _session (self (snd (close w))) = _session (self w) /\
  cookies (_http (self (snd (close w)))) = cookies (_http (self w)) /\
  configuration (self (snd (close w))) = configuration (self w) /\
  is_closed (_http (self (snd (close w)))) = true /\
  forall cs, after_all srv cs (snd (close w)) = snd (close w).
Proof.
  repeat split. intros cs. now apply after_all_closed.
Qed.

(** X13.  A client used as [async with client: body] is closed on every
    way out of the body, whether the body returns or raises, and what
    the body returned or raised reaches the caller; the session the
    body left is kept, and after the block nothing more can be sent. *)
Theorem async_with_releases {A} (srv : Server) (body : M A) (w : World) :
  fst (async_with body w) = fst (body w) /\
  is_closed (_http (self (snd (async_with body w)))) = true /\
  wire (snd (async_with body w)) = wire (snd (body w)) /\
  _session (self (snd (async_with body w))) = _session (self (snd (body w))) /\
  forall cs,
    after_all srv cs (snd (async_with body w)) = snd (async_with body w).
Proof.
  unfold async_with, __aenter__, __aexit__, close. unfold_monad. simpl.
  destruct (body w) as [o w1]. simpl.
  repeat split. intros cs. now apply after_all_closed.
Qed.

(** ** The wrappers *)

Lemma endpoint_sends (srv : Server) (ep : Endpoint) (w : World)
    (s : WebtopSession) :
  _session (self w) = Some s ->
  is_closed (_http (self w)) = false ->
  wire (snd (call_endpoint srv ep w)) =
    request_sent "POST" (endpoint_path ep) None (Some (endpoint_body ep)) (self w)
    :: wire w.
Proof.
  intros Hs Hopen. rewrite endpoint_world.
  now rewrite (request_run srv _ _ _ _ w w (ensure_session srv w s Hs) Hopen).
Qed.

(** X14.  What each wrapper posts, for a logged-in client on an open
    transport whose jar holds strings: one request to its own path, with no headers of its own,
    the jar's cookies, and a JSON object built from its arguments under
    the portal's key names; arguments left out take their defaults
    (page 1, label 0, no read filter and an empty query for the inbox;
    week 0, view 0 and module 10 for the schedule). *)
Theorem wrappers_post (srv : Server) (w : World) (s : WebtopSession) :
  _session (self w) = Some s ->
  is_closed (_http (self w)) = false ->
  jar_strings (cookies (_http (self w))) ->
  let posts (call : M JSON) (path : string) (body : JSON) : Prop :=
    wire (snd (call w)) =
      {| rq_method := "POST"; rq_path := path; rq_headers := Some ∅;
         rq_json := Some body; rq_cookies := cookies (_http (self w)) |}
      :: wire w in
  posts (get_students srv) "/server/api/dashboard/InitDashboard" (JObj []) /\
  (forall i c n,
     posts (get_homework srv i c n) "/server/api/dashboard/GetHomeWork"
       (JObj [ ("id", JStr i); ("ClassCode", JNum c); ("ClassNumber", JNum n) ])) /\
  (forall i c,
     posts (get_discipline_events srv i c)
       "/server/api/dashboard/GetPupilDiciplineEvents"
       (JObj [ ("id", JStr i); ("ClassCode", JNum c) ])) /\
  posts (get_preview_unread_notifications srv)
    "/server/api/Menu/GetPreviewUnreadNotifications" (JObj []) /\
  (forall i,
     posts (get_notification_settings srv i)
       "/server/api/Notification/GetNotificationsSettings"
       (JObj [ ("id", JStr i) ])) /\
  (forall p l h q,
     posts (get_messages_inbox srv p l h q)
       "/server/api/messageBox/GetMessagesInbox"
       (JObj [ ("PageId", JNum (default 1 p)); ("LabelId", JNum (default 0 l));
               ("HasRead", match h with Some b => JBool b | None => JNull end);
               ("SearchQuery", JStr (default "" q)) ])) /\
  (forall wk v y i c m,
     posts (get_pupil_schedule srv wk v y i c m)
       "/server/api/PupilCard/GetPupilScheduale"
       (JObj [ ("weekIndex", JNum (default 0 wk)); ("viewType", JNum (default 0 v));
               ("studyYear", JNum y); ("studentID", JStr i);
               ("classCode", JNum c); ("moduleID", JNum (default 10 m)) ])).
Proof.
  intros Hs Hopen _ posts. subst posts. cbv beta.
  repeat split; intros.
  - exact (endpoint_sends srv GetStudents w s Hs Hopen).
  - exact (endpoint_sends srv (GetHomework i c n) w s Hs Hopen).
  - exact (endpoint_sends srv (GetDisciplineEvents i c) w s Hs Hopen).
  - exact (endpoint_sends srv GetPreviewUnreadNotifications w s Hs Hopen).
  - exact (endpoint_sends srv (GetNotificationSettings i) w s Hs Hopen).
  - exact (endpoint_sends srv (GetMessagesInbox p l h q) w s Hs Hopen).
  - exact (endpoint_sends srv (GetPupilSchedule wk v y i c m) w s Hs Hopen).
Qed.

Lemma wrappers_post_witness :
  let srv := Examples.always (Examples.ok Examples.jane) in
  let w := after srv CallLogin (fresh Examples.alice) in
  option_map rq_json
    (head (wire (snd (get_pupil_schedule srv None None 2026 "E1" 5 None w)))) =
    Some (Some (JObj [ ("weekIndex", JNum 0); ("viewType", JNum 0);
                       ("studyYear", JNum 2026); ("studentID", JStr "E1");
                       ("classCode", JNum 5); ("moduleID", JNum 10) ])).
Proof.
  intros srv w.
  pose proof (wrappers_post srv w
                (session_of (JStr "T1")
                   [ ("token", JStr "T1"); ("userId", JStr "U1");
                     ("firstName", JStr "Jane"); ("lastName", JStr "Doe") ])
                eq_refl eq_refl ltac:(concrete_jar)) as H.
  cbv zeta in H.
  destruct H as (_ & _ & _ & _ & _ & _ & H).
  rewrite (H None None 2026%Z "E1" 5%Z None). reflexivity.
Defined.

(** ** Clients without auto-login, and credentials *)

Lemma after_manual (srv : Server) (c : Call) (w : World) :
  _session (self w) = None ->
  _auto_login (self w) = false ->
  c <> CallLogin ->
  _session (self (after srv c w)) = None /\
  _auto_login (self (after srv c w)) = false /\
  wire (after srv c w) = wire w.
Proof.
  intros Hn Ha Hc.
  pose proof (ensure_no_auto_login srv w Hn Ha) as He.
  destruct c as [ | | m p h j | ep | | ]; simpl.
  - contradiction.
  - rewrite He. auto.
  - rewrite (request_raises_early _ _ _ _ _ _ _ _ He). auto.
  - rewrite endpoint_world. rewrite (request_raises_early _ _ _ _ _ _ _ _ He). auto.
  - unfold session. unfold_monad. simpl. rewrite Hn. auto.
  - auto.
Qed.

(** X15.  A client without a session and with auto-login off never
    contacts the portal by itself: whatever is called on it, so long as
    [login] is not, nothing goes on the wire and it stays logged out. *)
Theorem manual_client_silent (srv : Server) (cs : list Call) :
  Forall (fun c => c <> CallLogin) cs ->
  forall w,
    _session (self w) = None ->
    _auto_login (self w) = false ->
    wire (after_all srv cs w) = wire w /\
    _session (self (after_all srv cs w)) = None.
Proof.
  induction 1 as [ | c cs Hc _ IH ]; intros w Hn Ha; [ auto | ].
  destruct (after_manual srv c w Hn Ha Hc) as (Hn1 & Ha1 & Hw1).
  simpl. destruct (IH (after srv c w) Hn1 Ha1) as [Hw Hs].
  split; [ | exact Hs ].
  etransitivity; [ exact Hw | exact Hw1 ].
Qed.

Lemma manual_client_silent_witness :
  let srv := Examples.always (Examples.ok Examples.jane) in
  wire (after_all srv
          [CallEndpoint GetStudents; CallEnsureLoggedIn; CallSession;
           CallRequest "GET" "/x" None None]
          (fresh manual)) = [].
Proof.
  intros srv.
  apply (manual_client_silent srv
           [CallEndpoint GetStudents; CallEnsureLoggedIn; CallSession;
            CallRequest "GET" "/x" None None]);
    [ repeat constructor; discriminate | reflexivity | reflexivity ].
Defined.

Lemma after_all_configuration (srv : Server) (cs : list Call) (w : World) :
  configuration (self (after_all srv cs w)) = configuration (self w).
Proof.
  revert w. induction cs as [ | c cs IH ]; intros w; [ reflexivity | ].
  simpl. etransitivity; [ apply IH | apply after_configuration ].
Qed.

Lemma after_all_open (srv : Server) (cs : list Call) (w : World) :
  Forall (fun c => c <> CallClose) cs ->
  is_closed (_http (self (after_all srv cs w))) = is_closed (_http (self w)).
Proof.
  intros H. revert w. induction H as [ | c cs Hc _ IH ]; intros w; [ reflexivity | ].
  simpl. etransitivity; [ apply IH | ].
  destruct (after_frame srv c w Hc) as (_ & _ & _ & _ & E). exact E.
Qed.

(** X16.  However many calls came before, short of [close], and so
    long as the jar holds strings, [login] posts to the login path the
    credentials the client was constructed with, under the keys [UserName], [Password], [Data], [RememberMe],
    [BiometricLogin], with the constructor's defaults for what was left
    out; it sends them whether or not a session exists. *)
Theorem login_posts_credentials (srv : Server) (cs : list Call)
    (username password : string) (data : option string)
    (remember_me : option bool) (biometric_login url : option string)
    (timeout_arg : option Q) (auto_login : option bool) :
  Forall (fun c => c <> CallClose) cs ->
  let w := after_all srv cs
             (fresh (__init__ username password data remember_me
                       biometric_login url timeout_arg auto_login)) in
  jar_strings (cookies (_http (self w))) ->
  exists rq,
    wire (snd (login srv w)) = rq :: wire w /\
    rq_method rq = "POST" /\
    rq_path rq = "/server/api/user/LoginByUserNameAndPassword" /\
    rq_json rq =
      Some (JObj [ ("UserName", JStr username);
                   ("Password", JStr password);
                   ("Data", JStr (default "+Aabe7FAdVluG6Lu+0ibrA==" data));
                   ("RememberMe", JBool (default false remember_me));
                   ("BiometricLogin", JStr (default "" biometric_login)) ]).
Proof.
  intros Hcs w _.
  set (c0 := __init__ username password data remember_me biometric_login url
               timeout_arg auto_login) in *.
  pose proof (after_all_configuration srv cs (fresh c0)) as Hcfg.
  pose proof (after_all_open srv cs (fresh c0) Hcs) as Hopen.
  fold w in Hcfg, Hopen. simpl in Hopen.
  exists (login_request (self w)).
  split.
  - pose proof (login_inv srv w) as H.
    destruct (login srv w) as [[s|e] w']; simpl.
    + tauto.
    + destruct H as [_ ->]. now rewrite Hopen.
  - split; [ reflexivity | ]. split; [ reflexivity | ].
    unfold configuration in Hcfg. simpl in Hcfg.
    injection Hcfg as Hu Hp Hd Hr Hb _ _ _.
    unfold login_request. simpl. now rewrite Hu, Hp, Hd, Hr, Hb.
Qed.

Lemma login_posts_credentials_witness :
  let srv := Examples.always (Examples.ok Examples.jane) in
  let w := after_all srv [CallLogin; CallEndpoint GetStudents] (fresh Examples.alice) in
  option_map rq_json (head (wire (snd (login srv w)))) =
    Some (Some (JObj [ ("UserName", JStr "alice"); ("Password", JStr "secret");
                       ("Data", JStr "+Aabe7FAdVluG6Lu+0ibrA==");
                       ("RememberMe", JBool false);
                       ("BiometricLogin", JStr "") ])).
Proof.
  intros srv w.
  destruct (login_posts_credentials srv [CallLogin; CallEndpoint GetStudents]
              "alice" "secret" None None None None None None)
    as (rq & Hw & _ & _ & Hj);
    [ repeat constructor; discriminate | concrete_jar | ].
  fold Examples.alice in Hw. fold w in Hw. rewrite Hw. simpl. now rewrite Hj.
Defined.
